(** * social/backends/base.py: the BaseAuth backend and its pipeline executor

    A shallow embedding of [BaseAuth] (src/social/backends/base.py): the
    setting lookup, the allow-list filter, the [authenticate] entry point,
    the [pipeline] unwrapping and the [run_pipeline] executor, followed by
    the properties the specification states about them.

    Python values are a small universe of dynamically typed data; keyword
    dictionaries are finite maps with string keys; instances of classes are
    carried by value as their attribute dictionary.  Calls that may raise
    return a [res]; code that reads or writes the backend instance, calls a
    pipeline step or calls the strategy runs in the monad [M], which threads
    the backend and the external world and records the calls made to steps
    and to [clean_partial_pipeline].

    Conventions of the model:
    - the provider [name] of a backend is a string, as the class declares
      it; the other attributes of the backend hold arbitrary values;
    - a pipeline is a list of step addresses, the [details] of a user a
      dictionary;
    - an instance is truthy and equal to no string; reading an attribute
      it lacks, or any attribute of a value that is no instance, raises
      AttributeError;
    - a step acts on the world of the collaborators and answers a value or
      raises; it does not rebind the attributes of the backend;
    - what is imported from outside the file ([module_member],
      [setting_name], the strategy) is a parameter, gathered in [Env]. *)

From Stdlib Require Import ZArith Ascii String List.
From stdpp Require Import gmap strings list fin_maps.

Set Warnings "-register-all".
Local Open Scope string_scope.
Local Open Scope list_scope.

(** ** Python values *)

Inductive value : Type :=
  | VNone
  | VBool (b : bool)
  | VInt (n : Z)
  | VStr (s : string)
  | VList (xs : list value)
  | VDict (d : gmap string value)
  | VObj (attrs : gmap string value).

(** A dictionary with string keys: [**kwargs], the pipeline context, the
    mapping a step returns, the [details] of a user. *)
Abbreviation dict := (gmap string value).

(** Exceptions the modelled code can raise itself, and [Failure] for
    whatever a collaborator raises. *)
Inductive exn : Type :=
  | AttributeError
  | TypeError
  | IndexError
  | Failure (what : string).

Inductive res (A : Type) : Type :=
  | Ok (a : A)
  | Raise (e : exn).
Arguments Ok {A} a.
Arguments Raise {A} e.

Definition res_bind {A B} (r : res A) (f : A → res B) : res B :=
  match r with
  | Ok a => f a
  | Raise e => Raise e
  end.

(** [bool(v)]: None, False, 0, the empty string, list and dict are falsy;
    an instance of a class that defines neither [__bool__] nor [__len__]
    is truthy. *)
Definition truthy (v : value) : bool :=
  match v with
  | VNone => false
  | VBool b => b
  | VInt n => negb (n =? 0)%Z
  | VStr s => negb (String.eqb s "")
  | VList xs => match xs with [] => false | _ :: _ => true end
  | VDict d => negb (Nat.eqb (size d) 0)
  | VObj _ => true
  end.

(** [a or b] *)
Definition py_or (a b : value) : value := if truthy a then a else b.

(** [isinstance(v, dict)] *)
Definition is_dict (v : value) : bool :=
  match v with VDict _ => true | _ => false end.

(** [v.a]: only instances carry the attributes read here. *)
Definition getattr (v : value) (a : string) : res value :=
  match v with
  | VObj attrs =>
      match attrs !! a with
      | Some x => Ok x
      | None => Raise AttributeError
      end
  | _ => Raise AttributeError
  end.

(** [v.a = x]: the instance with the attribute set; None, booleans,
    numbers, strings, lists and dicts accept no attribute. *)
Definition setattr (v : value) (a : string) (x : value) : res value :=
  match v with
  | VObj attrs => Ok (VObj (<[a := x]> attrs))
  | _ => Raise AttributeError
  end.

(** [d.get(k)] *)
Definition dict_get (d : dict) (k : string) : value := default VNone (d !! k).

(** [k in d] *)
Definition has_key (d : dict) (k : string) : bool := bool_decide (is_Some (d !! k)).

(** [d.setdefault(k, v)] *)
Definition setdefault (k : string) (v : value) (d : dict) : dict :=
  match d !! k with
  | Some _ => d
  | None => <[k := v]> d
  end.

(** [v != s] for a string [s]: only the same string is equal to it. *)
Definition py_ne_str (v : value) (s : string) : bool :=
  match v with
  | VStr t => negb (String.eqb t s)
  | _ => true
  end.

(** [pipeline_index + idx] with [idx] an enumerate counter: defined on
    integers (booleans are integers), a TypeError on everything else. *)
Definition py_add_index (pipeline_index : value) (idx : nat) : res value :=
  match pipeline_index with
  | VInt n => Ok (VInt (n + Z.of_nat idx))
  | VBool b => Ok (VInt (Z.b2z b + Z.of_nat idx))
  | _ => Raise TypeError
  end.

(** [l[start:]]: a negative start counts from the end, and the start is
    clamped to the bounds of the sequence. *)
Definition slice_start (start : Z) (len : nat) : nat :=
  if (start <? 0)%Z then Z.to_nat (Z.max 0 (start + Z.of_nat len)) else Z.to_nat start.

Definition slice_from {A} (start : value) (l : list A) : res (list A) :=
  match start with
  | VNone => Ok l
  | VInt n => Ok (drop (slice_start n (length l)) l)
  | VBool b => Ok (drop (slice_start (Z.b2z b) (length l)) l)
  | _ => Raise TypeError
  end.

(** [s.split(sep, 1)] for a one-character separator: the text before and
    after the first separator, or the whole string when it has none.  Only
    a string has the method; the caller raises on anything else. *)
Fixpoint split_first (sep : ascii) (s : string) : option (string * string) :=
  match s with
  | EmptyString => None
  | String c rest =>
      if Ascii.eqb c sep then Some (EmptyString, rest)
      else match split_first sep rest with
           | Some (before, after) => Some (String c before, after)
           | None => None
           end
  end.

Definition str_split1 (s : string) (sep : ascii) : list string :=
  match split_first sep s with
  | Some (before, after) => [before; after]
  | None => [s]
  end.

(** [l[i]] *)
Definition index {A} (l : list A) (i : nat) : res A :=
  match l !! i with
  | Some x => Ok x
  | None => Raise IndexError
  end.

(** [needle in hay] for two strings. *)
Fixpoint is_substring (needle hay : string) : bool :=
  String.prefix needle hay ||
  match hay with
  | EmptyString => false
  | String _ rest => is_substring needle rest
  end.

(** [x in container] for a string [x]: an element of a list, a key of a
    dict, a substring of a string; anything else is not iterable. *)
Definition py_in_str (x : string) (container : value) : res bool :=
  match container with
  | VList xs => Ok (existsb (λ y, negb (py_ne_str y x)) xs)
  | VDict d => Ok (has_key d x)
  | VStr s => Ok (is_substring x s)
  | _ => Raise TypeError
  end.

(** Binding of the call [self.m(pipeline, *pos, **kw)] to the signature
    [def m(self, pipeline, pipeline_index=0, *args, **kwargs)], shared by
    [pipeline] and [run_pipeline]: the first extra positional argument is
    [pipeline_index], which may otherwise come by keyword; a keyword that
    names a parameter already bound is a TypeError. *)
Definition bind_params (pos : list value) (kw : dict) : res (value * list value * dict) :=
  if has_key kw "self" || has_key kw "pipeline" then Raise TypeError
  else match pos with
       | [] => Ok (default (VInt 0) (kw !! "pipeline_index"), [], delete "pipeline_index" kw)
       | x :: rest =>
           if has_key kw "pipeline_index" then Raise TypeError
           else Ok (x, rest, kw)
       end.

(** ** The backend instance, the collaborators and the monad *)

(** The instance attributes of a backend; [name] is the provider name the
    class declares, a string. *)
Record BaseAuth : Type := {
  name : string;
  strategy : value;
  redirect_uri : value;
  data : value
}.

Definition with_strategy (v : value) (self : BaseAuth) : BaseAuth :=
  {| name := name self; strategy := v;
     redirect_uri := redirect_uri self; data := data self |}.

Definition with_redirect_uri (v : value) (self : BaseAuth) : BaseAuth :=
  {| name := name self; strategy := strategy self;
     redirect_uri := v; data := data self |}.

Definition with_data (v : value) (self : BaseAuth) : BaseAuth :=
  {| name := name self; strategy := strategy self;
     redirect_uri := redirect_uri self; data := v |}.

(** The backend seen as a Python value, as a step receives it. *)
Definition as_value (self : BaseAuth) : value :=
  VObj (<["name" := VStr (name self)]>
       (<["strategy" := strategy self]>
       (<["redirect_uri" := redirect_uri self]>
       (<["data" := data self]> ∅)))).

(** Calls that leave the module, as they are made. *)
Inductive event : Type :=
  | EvStep (func : string) (args : list value) (kwargs : dict)
  | EvClean.

Definition is_clean (e : event) : bool :=
  match e with EvClean => true | EvStep _ _ _ => false end.

Definition step_name (e : event) : option string :=
  match e with EvStep func _ _ => Some func | EvClean => None end.

(** What leaves a [for] loop whose body may [return]. *)
Inductive flow : Type :=
  | Next (out : dict)
  | Return (v : value).

(** A pipeline step over a world [W], called with the positional arguments
    and the context as keywords. *)
Definition step (W : Type) : Type := list value → dict → W → res value * W.

(** What the module takes from outside: the state of the collaborators
    (session, storage, configuration), the helpers of [social.utils] and
    the strategy. *)
Class Env : Type := {
  World : Type;
  (** [social.utils.module_member], which resolves a step address. *)
  module_member : string → res (step World);
  (** [social.utils.setting_name(backend_name, name)], the
      provider-namespaced key. *)
  setting_name : string → string → string;
  (** Modelled from the spec: [strategy.setting(name, default)] is the
      lookup of the external configuration; it gives the value stored
      under [name], and [default] when none is stored.  [Some v] is the
      stored value; the fresh [object()] the caller passes as default is
      [None]. *)
  strategy_setting : dict → World → string → option value;
  (** The methods of the strategy called here; the first argument is the
      attribute dictionary of the strategy instance. *)
  strategy_request_data : dict → World → res value * World;
  strategy_get_pipeline : dict → World → res (list string) * World;
  strategy_clean_partial_pipeline : dict → World → res value * World
}.

Record state {env : Env} : Type := {
  backend : BaseAuth;
  world : World
}.

(** A computation: its outcome, the state it leaves and the calls it
    made, in order. *)
Definition M {env : Env} (A : Type) : Type := state → res A * state * list event.

Definition ret {env : Env} {A} (a : A) : M A := λ st, (Ok a, st, []).

Definition raise {env : Env} {A} (e : exn) : M A := λ st, (Raise e, st, []).

Definition bind {env : Env} {A B} (m : M A) (f : A → M B) : M B :=
  λ st,
    match m st with
    | (Ok a, st', log) =>
        let '(r, st'', log') := f a st' in (r, st'', log ++ log')
    | (Raise e, st', log) => (Raise e, st', log)
    end.

Notation "x <- m ;; k" := (bind m (λ x, k))
  (at level 100, m at next level, right associativity).

Definition lift {env : Env} {A} (r : res A) : M A :=
  match r with
  | Ok a => ret a
  | Raise e => raise e
  end.

Definition get_self {env : Env} : M BaseAuth := λ st, (Ok (backend st), st, []).

Definition set_self {env : Env} (self : BaseAuth) : M () :=
  λ st, (Ok (), {| backend := self; world := world st |}, []).

(** The state after a step left the world as [w]. *)
Definition after {env : Env} (st : state) (w : World) : state :=
  {| backend := backend st; world := w |}.

(** A call into a collaborator, recorded as [ev]. *)
Definition call {env : Env} {A} (ev : list event) (f : World → res A * World) : M A :=
  λ st,
    let '(r, w) := f (world st) in
    (r, after st w, ev).

(** [recv.method(...)]: only an instance has the method. *)
Definition call_method {env : Env} {A} (recv : value) (ev : list event)
    (method : dict → World → res A * World) : M A :=
  match recv with
  | VObj attrs => call ev (method attrs)
  | _ => raise AttributeError
  end.

(** ** BaseAuth *)

(** *** setting (lines 35-42)

    The loop over the two names; [strategy.setting] answers [None] where
    it would hand back the [_default] sentinel. *)
Fixpoint setting_lookup {env : Env} (names : list string) (default : value) : M value :=
  match names with
  | [] => ret default
  | name :: names =>
      self <- get_self ;;
      found <- call_method (strategy self) []
                 (λ attrs w, (Ok (strategy_setting attrs w name), w)) ;;
      match found with
      | Some value => ret value
      | None => setting_lookup names default
      end
  end.

Definition setting {env : Env} (key : string) (default : value) : M value :=
  self <- get_self ;;
  setting_lookup [setting_name (name self) key; key] default.

(** *** run_pipeline (lines 103-117) *)

(** Lines 104-107: the copy of the keyword arguments with the defaults. *)
Definition initial_context (self : BaseAuth) (kwargs : dict) : res dict :=
  let out := kwargs in
  let out := setdefault "strategy" (strategy self) out in
  let popped := dict_get out (name self) in
  let out := delete (name self) out in
  let out := setdefault "backend" (py_or popped (as_value self)) out in
  res_bind (getattr (strategy self) "request") (λ request,
  Ok (setdefault "request" request out)).

(** Lines 109-115: the loop over [enumerate(pipeline)], from counter [idx]. *)
Fixpoint run_steps {env : Env} (pipeline_index : value) (args : list value)
    (pipeline : list string) (idx : nat) (out : dict) : M flow :=
  match pipeline with
  | [] => ret (Next out)
  | name :: pipeline =>
      i <- lift (py_add_index pipeline_index idx) ;;
      let out := <["pipeline_index" := i]> out in
      func <- lift (module_member name) ;;
      r <- call [EvStep name args out] (func args out) ;;
      let result := py_or r (VDict ∅) in
      match result with
      | VDict d => run_steps pipeline_index args pipeline (S idx) (d ∪ out)
      | _ => ret (Return result)
      end
  end.

Definition run_pipeline_body {env : Env} (pipeline : list string)
    (pipeline_index : value) (args : list value) (kwargs : dict) : M value :=
  self <- get_self ;;
  out <- lift (initial_context self kwargs) ;;
  fl <- run_steps pipeline_index args pipeline 0 out ;;
  match fl with
  | Return result => ret result
  | Next out =>
      self <- get_self ;;
      _ <- call_method (strategy self) [EvClean] strategy_clean_partial_pipeline ;;
      ret (VDict out)
  end.

(** The call [self.run_pipeline(pipeline, *pos, **kw)]. *)
Definition run_pipeline {env : Env} (pipeline : list string)
    (pos : list value) (kw : dict) : M value :=
  b <- lift (bind_params pos kw) ;;
  let '(pipeline_index, args, kwargs) := b in
  run_pipeline_body pipeline pipeline_index args kwargs.

(** A step whose result does not depend on the world. *)
Definition pure_step {env : Env} (func : step World) : Prop :=
  ∀ a ctx w w', (func a ctx w).1 = (func a ctx w').1.

(** How the loop of the run [self.run_pipeline(pipeline, *pos, **kw)] ends:
    [Next] when every step completed, [Return] when a step cut the loop
    short, an exception when the set-up or a step raised. *)
Definition loop_of_run {env : Env} (pipeline : list string)
    (pos : list value) (kw : dict) (st : state) : res flow :=
  match bind_params pos kw with
  | Ok (pipeline_index, args, kwargs) =>
      match initial_context (backend st) kwargs with
      | Ok out => (run_steps pipeline_index args pipeline 0 out st).1.1
      | Raise e => Raise e
      end
  | Raise e => Raise e
  end.

(** *** pipeline (lines 85-93) *)

(** Lines 87-93, on the value [run_pipeline] returned. *)
Definition unwrap_user (out : value) : res value :=
  match out with
  | VDict d =>
      let user := dict_get d "user" in
      if truthy user then
        res_bind (setattr user "social_user" (dict_get d "social")) (λ user,
        setattr user "is_new" (dict_get d "is_new"))
      else Ok user
  | _ => Ok out
  end.

(** The call [self.pipeline(pipeline, *pos, **kw)]. *)
Definition pipeline {env : Env} (pipeline : list string)
    (pos : list value) (kw : dict) : M value :=
  b <- lift (bind_params pos kw) ;;
  let '(pipeline_index, args, kwargs) := b in
  out <- run_pipeline pipeline (pipeline_index :: args) kwargs ;;
  lift (unwrap_user out).

(** *** authenticate (lines 61-83) *)

(** Lines 72-73: do the keyword arguments name this backend and carry a
    strategy and a response?  Reading [.name] may raise. *)
Definition validate (self : BaseAuth) (kwargs : dict) : res bool :=
  match kwargs !! "backend" with
  | None => Ok false
  | Some b =>
      res_bind (getattr b "name") (λ bname,
      Ok (negb (py_ne_str bname (name self)
                || negb (has_key kwargs "strategy")
                || negb (has_key kwargs "response"))))
  end.

Definition authenticate {env : Env} (args : list value) (kwargs : dict) : M value :=
  self <- get_self ;;
  valid <- lift (validate self kwargs) ;;
  if negb valid then ret VNone
  else
    _ <- set_self (with_strategy (py_or (strategy self) (dict_get kwargs "strategy")) self) ;;
    self <- get_self ;;
    _ <- set_self (with_redirect_uri (py_or (redirect_uri self) (dict_get kwargs "redirect_uri")) self) ;;
    self <- get_self ;;
    d <- call_method (strategy self) [] strategy_request_data ;;
    _ <- set_self (with_data d self) ;;
    self <- get_self ;;
    steps <- call_method (strategy self) [] strategy_get_pipeline ;;
    let kwargs := setdefault "is_new" (VBool false) kwargs in
    steps <- match kwargs !! "pipeline_index" with
             | Some start => lift (slice_from start steps)
             | None => ret steps
             end ;;
    pipeline steps args kwargs.

(** The backend as lines 76-78 leave it, [d] being the request data. *)
Definition bound_to (self : BaseAuth) (kwargs : dict) (d : value) : BaseAuth :=
  with_data d
    (with_redirect_uri (py_or (redirect_uri self) (dict_get kwargs "redirect_uri"))
       (with_strategy (py_or (strategy self) (dict_get kwargs "strategy")) self)).

(** *** auth_allowed (lines 123-133) *)

Definition auth_allowed {env : Env} (response : value) (details : dict) : M bool :=
  emails <- setting "WHITELISTED_EMAILS" (VList []) ;;
  domains <- setting "WHITELISTED_DOMAINS" (VList []) ;;
  let email := dict_get details "email" in
  if truthy email && (truthy emails || truthy domains) then
    match email with
    | VStr email =>
        domain <- lift (index (str_split1 email "@") 1) ;;
        listed <- lift (py_in_str email emails) ;;
        if listed then ret true else lift (py_in_str domain domains)
    | _ => raise AttributeError
    end
  else ret true.

(** ** A concrete environment

    A small configuration on which the statements below are evaluated:
    the world counts how often the partial pipeline was cleared, a strategy
    instance carries its configuration, its request data and its pipeline
    as attributes, and a handful of steps stand for configured ones. *)

Definition upper_ascii (c : ascii) : ascii :=
  let n := nat_of_ascii c in
  if (97 <=? n)%nat && (n <=? 122)%nat then ascii_of_nat (n - 32) else c.

Fixpoint upper (s : string) : string :=
  match s with
  | EmptyString => EmptyString
  | String c rest => String (upper_ascii c) (upper rest)
  end.

(** Modelled from the spec: [setting_name] is not part of the sources; the
    provider-namespaced key is the upper-cased provider name, an
    underscore and the key, [FOO_X] for the backend [foo] and the key
    [X]. *)
Definition spec_setting_name (backend_name key : string) : string :=
  (upper backend_name ++ "_" ++ key)%string.

Definition the_user : value :=
  VObj (<["username" := VStr "bob"]> ∅).

Definition demo_member (address : string) : res (step nat) :=
  if String.eqb address "get_details" then
    Ok (λ _ _ w, (Ok (VDict (<["details" := VDict (<["email" := VStr "b@x.com"]> ∅)]> ∅)), w))
  else if String.eqb address "get_username" then
    Ok (λ _ _ w, (Ok (VDict (<["username" := VStr "bob"]> ∅)), w))
  else if String.eqb address "load_user" then
    Ok (λ _ _ w, (Ok (VDict (<["user" := the_user]>
                            (<["social" := VStr "bob@foo"]>
                            (<["is_new" := VBool true]> ∅)))), w))
  else if String.eqb address "nothing" then
    Ok (λ _ _ w, (Ok VNone, w))
  else if String.eqb address "declined" then
    Ok (λ _ _ w, (Ok (VBool false), w))
  else if String.eqb address "redirect" then
    Ok (λ _ _ w, (Ok (VStr "/consent"), w))
  else Raise (Failure "ImportError").

Definition names_of (v : option value) : list string :=
  match v with
  | Some (VList xs) => omap (λ x, match x with VStr s => Some s | _ => None end) xs
  | _ => []
  end.

Definition demo : Env := {|
  World := nat;
  module_member := demo_member;
  setting_name := spec_setting_name;
  strategy_setting attrs _ key :=
    match attrs !! "settings" with
    | Some (VDict conf) => conf !! key
    | _ => None
    end;
  strategy_request_data attrs w := (Ok (default (VDict ∅) (attrs !! "data")), w);
  strategy_get_pipeline attrs w := (Ok (names_of (attrs !! "pipeline")), w);
  strategy_clean_partial_pipeline _ w := (Ok VNone, S w)
|}.

(** A strategy instance with the given configuration and pipeline. *)
Definition demo_strategy (conf : dict) (steps : list string) : value :=
  VObj (<["request" := VStr "GET /complete/foo"]>
       (<["settings" := VDict conf]>
       (<["pipeline" := VList (VStr <$> steps)]> ∅))).

(** The backend [foo] bound to such a strategy, in a fresh world. *)
Definition demo_state (backend_name : string) (conf : dict) (steps : list string) : @state demo :=
  @Build_state demo
    {| name := backend_name;
       strategy := demo_strategy conf steps;
       redirect_uri := VNone;
       data := VDict ∅ |}
    0%nat.

(** States with one allow-list configured, and the details of a user. *)
Definition only_domain_x : @state demo :=
  demo_state "foo" (<["WHITELISTED_DOMAINS" := VList [VStr "x.com"]]> ∅) [].

Definition only_email_a : @state demo :=
  demo_state "foo" (<["WHITELISTED_EMAILS" := VList [VStr "a@x.com"]]> ∅) [].

Definition only_email_bob : @state demo :=
  demo_state "foo" (<["WHITELISTED_EMAILS" := VList [VStr "bob"]]> ∅) [].

Definition details_of (email : string) : dict := <["email" := VStr email]> ∅.

(** The backend [foo] with nothing configured, and the context its runs
    start from when no keyword argument is passed. *)
Definition foo : @state demo := demo_state "foo" ∅ [].

Definition foo_context : dict :=
  <["request" := VStr "GET /complete/foo"]>
  (<["backend" := as_value (backend foo)]>
  (<["strategy" := strategy (backend foo)]> ∅)).

(** The state once the partial pipeline was cleared [n] times. *)
Definition cleared (st : @state demo) (n : nat) : @state demo :=
  @Build_state demo (backend st) n.

(** The backend [username], one of whose steps contributes an entry
    named like it. *)
Definition username : @state demo := demo_state "username" ∅ [].

(** The backend [foo] with a pipeline configured, and keyword arguments
    that name it. *)
Definition foo_with (steps : list string) : @state demo := demo_state "foo" ∅ steps.

Definition credentials (steps : list string) : dict :=
  <["backend" := as_value (backend (foo_with steps))]>
  (<["strategy" := strategy (backend (foo_with steps))]>
  (<["response" := VDict (<["id" := VInt 7]> ∅)]> ∅)).

(** Keyword arguments that name another backend. *)
Definition twitter_credentials : dict :=
  <["backend" := as_value (backend (demo_state "twitter" ∅ []))]>
  (<["strategy" := strategy (backend foo)]>
  (<["response" := VDict ∅]> ∅)).

(** ** The rest of BaseAuth

    The entry point of the disconnect flow and the extra arguments of the
    authorization request.  The first needs one more method of the
    strategy. *)

Class Services (env : Env) : Type := {
  (** [strategy.get_disconnect_pipeline()] *)
  strategy_get_disconnect_pipeline : dict → World → res (list string) * World
}.


(** *** disconnect (lines 95-101) *)

Definition disconnect {env : Env} {svc : Services env}
    (args : list value) (kwargs : dict) : M value :=
  self <- get_self ;;
  steps <- call_method (strategy self) [] strategy_get_disconnect_pipeline ;;
  steps <- match kwargs !! "pipeline_index" with
           | Some start => lift (slice_from start steps)
           | None => ret steps
           end ;;
  self <- get_self ;;
  b <- lift (getattr (strategy self) "backend") ;;
  n <- lift (getattr b "name") ;;
  let kwargs := <["name" := n]> kwargs in
  storage <- lift (getattr (strategy self) "storage") ;;
  user <- lift (getattr storage "user") ;;
  let kwargs := <["user_storage" := user]> kwargs in
  run_pipeline steps args kwargs.

(** *** auth_extra_arguments (lines 165-171) *)



(** ** A second concrete environment

    The steps of the first one and a step that fails; a strategy that
    knows its backend and its storage. *)

Definition lab_member (address : string) : res (step nat) :=
  if String.eqb address "create_user" then
    Ok (λ _ _ w, (Raise (Failure "IntegrityError"), w))
  else if String.eqb address "associate_user" then
    Ok (λ _ _ w, (Ok (VDict (<["user" := the_user]>
                            (<["social" := VStr "bob@foo"]> ∅))), w))
  else demo_member address.

Definition lab : Env := {|
  World := nat;
  module_member := lab_member;
  setting_name := spec_setting_name;
  strategy_setting := @strategy_setting demo;
  strategy_request_data := @strategy_request_data demo;
  strategy_get_pipeline := @strategy_get_pipeline demo;
  strategy_clean_partial_pipeline := @strategy_clean_partial_pipeline demo
|}.

Definition lab_services : Services lab := {|
  strategy_get_disconnect_pipeline attrs w :=
    (Ok (names_of (attrs !! "disconnect_pipeline")), w)
|}.

(** A strategy with a configuration and a disconnect pipeline, bound to a
    backend named like ours and to a storage. *)
Definition lab_strategy (backend_name : string) (conf : dict) (steps : list string) : value :=
  VObj (<["request" := VStr "POST /disconnect/foo"]>
       (<["settings" := VDict conf]>
       (<["disconnect_pipeline" := VList (VStr <$> steps)]>
       (<["pipeline" := VList (VStr <$> steps)]>
       (<["backend" := VObj (<["name" := VStr backend_name]> ∅)]>
       (<["storage" := VObj (<["user" := VStr "UserMixin"]> ∅)]> ∅)))))).

(** The backend with such a strategy and the given request data. *)
Definition lab_state (backend_name : string) (conf : dict) (steps : list string)
    (request_data : value) : @state lab :=
  @Build_state lab
    {| name := backend_name;
       strategy := lab_strategy backend_name conf steps;
       redirect_uri := VNone;
       data := request_data |}
    0%nat.

(** Keyword arguments that name the backend of such a state. *)
Definition lab_credentials (steps : list string) : dict :=
  <["backend" := as_value (backend (lab_state "foo" ∅ steps (VDict ∅)))]>
  (<["strategy" := strategy (backend (lab_state "foo" ∅ steps (VDict ∅)))]>
  (<["response" := VDict (<["id" := VInt 7]> ∅)]> ∅)).

(** The backend [foo] of the second environment, with a pipeline. *)
Definition lab_foo (steps : list string) : @state lab := lab_state "foo" ∅ steps (VDict ∅).




(** A domain allow-list written as one string. *)
Definition domains_as_string : @state demo :=
  demo_state "foo" (<["WHITELISTED_DOMAINS" := VStr "example.com"]> ∅) [].

(** The attributes of an instance. *)
Definition attrs_of (v : value) : dict :=
  match v with VObj attrs => attrs | _ => ∅ end.

(** Keyword arguments that carry another strategy and a redirect URI,
    and keyword arguments that resume at an index. *)
Definition other_strategy_credentials (steps : list string) : dict :=
  <["strategy" := VObj (<["request" := VStr "other"]> ∅)]>
  (<["redirect_uri" := VStr "/next"]> (lab_credentials steps)).

Definition resuming_credentials (steps : list string) (k : Z) : dict :=
  <["pipeline_index" := VInt k]> (lab_credentials steps).

(** Projections of a backend that was just rebuilt. *)
Ltac simpl_self :=
  cbn [backend world with_data with_redirect_uri with_strategy
       name strategy redirect_uri data].

(** ** Properties *)

Section Properties.

Context {env : Env}.

(** *** The monad *)

Lemma bind_ok {A B} (m : M A) (f : A → M B) st a st1 log1 :
  m st = (Ok a, st1, log1) →
  bind m f st = (let '(r, st2, log2) := f a st1 in (r, st2, log1 ++ log2)).
Proof. intros Hm. unfold bind. now rewrite Hm. Qed.

Lemma bind_raise {A B} (m : M A) (f : A → M B) st e st1 log1 :
  m st = (Raise e, st1, log1) →
  bind m f st = (Raise e, st1, log1).
Proof. intros Hm. unfold bind. now rewrite Hm. Qed.

Lemma bind_ret {A B} (a : A) (f : A → M B) st : bind (ret a) f st = f a st.
Proof. unfold bind, ret. now destruct (f a st) as [[r st'] log]. Qed.

Lemma bind_get_self {B} (f : BaseAuth → M B) st :
  bind get_self f st = f (backend st) st.
Proof. unfold bind, get_self. now destruct (f _ st) as [[r st'] log]. Qed.

Lemma bind_lift_ok {A B} (r : res A) (f : A → M B) st a :
  r = Ok a → bind (lift r) f st = f a st.
Proof. intros ->. apply bind_ret. Qed.

Lemma bind_lift_raise {A B} (r : res A) (f : A → M B) st e :
  r = Raise e → bind (lift r) f st = (Raise e, st, []).
Proof. now intros ->. Qed.

(** *** setting *)

(** One round of the loop of [setting]: the strategy is asked for [key]. *)
Lemma setting_lookup_step key names default st attrs :
  strategy (backend st) = VObj attrs →
  setting_lookup (key :: names) default st =
    match strategy_setting attrs (world st) key with
    | Some v => (Ok v, st, [])
    | None => setting_lookup names default st
    end.
Proof.
  intros Hs. destruct st as [self w]. simpl in Hs.
  cbn [setting_lookup]. rewrite bind_get_self. cbn [backend].
  rewrite Hs. unfold call_method, call, bind. cbn [world backend].
  destruct (strategy_setting attrs w key) as [v|]; [reflexivity|].
  destruct (setting_lookup names default _) as [[r st'] log]. reflexivity.
Qed.

(** C3: with a strategy bound, [setting key default] is the value stored
    under the provider-namespaced key when there is one, else the value
    stored under the bare key, else [default]; only the absence of a stored
    value moves on to the next candidate, whatever the stored value is. *)
Theorem setting_falls_back_on_absence key default st attrs :
  strategy (backend st) = VObj attrs →
  setting key default st =
    (Ok match strategy_setting attrs (world st) (setting_name (name (backend st)) key) with
        | Some v => v
        | None =>
            match strategy_setting attrs (world st) key with
            | Some v => v
            | None => default
            end
        end, st, []).
Proof.
  intros Hs. unfold setting. rewrite bind_get_self.
  rewrite (setting_lookup_step _ _ _ _ _ Hs).
  destruct (strategy_setting attrs (world st) (setting_name _ key)) as [v|]; [reflexivity|].
  rewrite (setting_lookup_step _ _ _ _ _ Hs).
  destruct (strategy_setting attrs (world st) key) as [v|]; reflexivity.
Qed.

(** *** auth_allowed *)

Lemma truthy_list_nil xs : truthy (VList xs) = false ↔ xs = [].
Proof. destruct xs; simpl; split; congruence. Qed.

Lemma py_ne_str_false v s : py_ne_str v s = false ↔ v = VStr s.
Proof.
  destruct v; simpl; split; try congruence.
  - rewrite negb_false_iff, String.eqb_eq. congruence.
  - intros [= ->]. now rewrite String.eqb_refl.
Qed.

Lemma py_in_str_list x xs :
  existsb (λ y, negb (py_ne_str y x)) xs = true ↔ VStr x ∈ xs.
Proof.
  rewrite existsb_exists. split.
  - intros (y & Hin & Hy). rewrite negb_true_iff, py_ne_str_false in Hy.
    subst y. now apply list_elem_of_In.
  - intros Hin. exists (VStr x). split; [now apply list_elem_of_In|].
    rewrite negb_true_iff. now apply py_ne_str_false.
Qed.

(** [auth_allowed] once both allow-lists are read. *)
Lemma auth_allowed_unfold response details st emails domains :
  setting "WHITELISTED_EMAILS" (VList []) st = (Ok emails, st, []) →
  setting "WHITELISTED_DOMAINS" (VList []) st = (Ok domains, st, []) →
  auth_allowed response details st =
    (if truthy (dict_get details "email") && (truthy emails || truthy domains) then
       match dict_get details "email" with
       | VStr email =>
           domain <- lift (index (str_split1 email "@") 1) ;;
           listed <- lift (py_in_str email emails) ;;
           if listed then ret true else lift (py_in_str domain domains)
       | _ => raise AttributeError
       end
     else ret true) st.
Proof.
  intros He Hd. unfold auth_allowed.
  rewrite (bind_ok _ _ _ _ _ _ He), (bind_ok _ _ _ _ _ _ Hd).
  match goal with |- context [?f st] =>
    match f with
    | (if _ then _ else _) => destruct (f st) as [[r st'] log]
    end
  end.
  reflexivity.
Qed.

(** C5, as the code has it: with both allow-lists empty every input is
    allowed, and so is every input whose email is missing or empty; with
    an allow-list configured and an email that has an at sign, the answer
    is true exactly when the email is in the email allow-list or the text
    after its first at sign is in the domain allow-list. *)
Theorem auth_allowed_by_allow_lists response details st emails domains :
  setting "WHITELISTED_EMAILS" (VList []) st = (Ok emails, st, []) →
  setting "WHITELISTED_DOMAINS" (VList []) st = (Ok domains, st, []) →
  (truthy emails = false → truthy domains = false →
   auth_allowed response details st = (Ok true, st, [])) ∧
  (truthy (dict_get details "email") = false →
   auth_allowed response details st = (Ok true, st, [])) ∧
  (∀ es ds email local domain,
     emails = VList es → domains = VList ds → es ≠ [] ∨ ds ≠ [] →
     details !! "email" = Some (VStr email) →
     split_first "@" email = Some (local, domain) →
     ∃ allowed,
       auth_allowed response details st = (Ok allowed, st, []) ∧
       (allowed = true ↔ VStr email ∈ es ∨ VStr domain ∈ ds)).
Proof.
  intros He Hd. rewrite (auth_allowed_unfold _ _ _ _ _ He Hd).
  split; [|split].
  - intros -> ->. now rewrite andb_false_r.
  - now intros ->.
  - intros es ds email local domain -> -> Hne Hemail Hsplit.
    unfold dict_get. rewrite Hemail. cbn [from_option id].
    assert (truthy (VStr email) = true) as ->.
    { destruct email; [discriminate Hsplit | reflexivity]. }
    assert (truthy (VList es) || truthy (VList ds) = true) as ->.
    { destruct es, ds; simpl; try reflexivity. destruct Hne; congruence. }
    cbn [andb]. unfold str_split1. rewrite Hsplit.
    unfold index. cbn [lookup list_lookup]. simpl lift.
    rewrite bind_ret. cbn [py_in_str]. rewrite bind_ret.
    destruct (existsb _ es) eqn:Hes.
    + exists true. split; [reflexivity|].
      split; [|reflexivity]. intros _. left. now apply py_in_str_list.
    + exists (existsb (λ y, negb (py_ne_str y domain)) ds). split; [reflexivity|].
      rewrite py_in_str_list. split; [now right|].
      intros [Hin|Hin]; [|exact Hin].
      apply py_in_str_list in Hin. congruence.
Qed.

(** C10: with list-valued allow-lists and an email that is a string when
    it is there at all, [auth_allowed] returns a boolean as soon as every
    non-empty email met with a configured allow-list has an at sign; and a
    non-empty email without one, met with a configured allow-list, ends in
    the IndexError of the domain extraction. *)
Theorem auth_allowed_total_given_at_sign response details st es ds :
  setting "WHITELISTED_EMAILS" (VList []) st = (Ok (VList es), st, []) →
  setting "WHITELISTED_DOMAINS" (VList []) st = (Ok (VList ds), st, []) →
  (∀ v, details !! "email" = Some v → truthy v = true → ∃ email, v = VStr email) →
  ((∀ email, details !! "email" = Some (VStr email) → email ≠ "" →
      es ≠ [] ∨ ds ≠ [] → is_Some (split_first "@" email)) →
   ∃ allowed, auth_allowed response details st = (Ok allowed, st, [])) ∧
  (∀ email, details !! "email" = Some (VStr email) → email ≠ "" →
     es ≠ [] ∨ ds ≠ [] → split_first "@" email = None →
     auth_allowed response details st = (Raise IndexError, st, [])).
Proof.
  intros He Hd Hty. rewrite (auth_allowed_unfold _ _ _ _ _ He Hd).
  split.
  - intros Hat.
    destruct (truthy (dict_get details "email")) eqn:Ht; [|now exists true].
    destruct (truthy (VList es) || truthy (VList ds)) eqn:Hl; [|now exists true].
    cbn [andb]. unfold dict_get in *.
    destruct (details !! "email") as [v|] eqn:Hemail; [|discriminate Ht].
    cbn [from_option id] in *. destruct (Hty v eq_refl Ht) as [email ->].
    assert (email ≠ "") as Hne by (intros ->; discriminate Ht).
    assert (es ≠ [] ∨ ds ≠ []) as Hconf.
    { destruct es; [destruct ds; [discriminate Hl|right]|left]; congruence. }
    destruct (Hat email eq_refl Hne Hconf) as [[local domain] Hsplit].
    unfold str_split1. rewrite Hsplit. unfold index. cbn [lookup list_lookup].
    simpl lift. rewrite bind_ret. cbn [py_in_str]. rewrite bind_ret.
    destruct (existsb _ es); eexists; reflexivity.
  - intros email Hemail Hne Hconf Hsplit.
    unfold dict_get. rewrite Hemail. cbn [from_option id].
    assert (truthy (VStr email) = true) as ->.
    { destruct email; [congruence | reflexivity]. }
    assert (truthy (VList es) || truthy (VList ds) = true) as ->.
    { destruct es, ds; simpl; try reflexivity. destruct Hconf; congruence. }
    cbn [andb]. unfold str_split1. rewrite Hsplit. reflexivity.
Qed.

(** *** The loop of run_pipeline *)

(** One round of the loop, for a step that resolves. *)
Lemma run_steps_cons pipeline_index args name rest idx out st i func :
  py_add_index pipeline_index idx = Ok i →
  module_member name = Ok func →
  run_steps pipeline_index args (name :: rest) idx out st =
    let ctx := <["pipeline_index" := i]> out in
    match func args ctx (world st) with
    | (Ok r, w) =>
        match py_or r (VDict ∅) with
        | VDict d =>
            let '(fl, st', log) :=
              run_steps pipeline_index args rest (S idx) (d ∪ ctx) (after st w) in
            (fl, st', EvStep name args ctx :: log)
        | result => (Ok (Return result), after st w, [EvStep name args ctx])
        end
    | (Raise e, w) => (Raise e, after st w, [EvStep name args ctx])
    end.
Proof.
  intros Hi Hf. cbn [run_steps].
  rewrite (bind_lift_ok _ _ _ _ Hi), (bind_lift_ok _ _ _ _ Hf).
  unfold bind at 1. unfold call at 1. fold (after st).
  destruct (func args _ (world st)) as [[r|e] w]; [|reflexivity].
  fold (after st w).
  destruct (py_or r (VDict ∅)); reflexivity.
Qed.

(** The loop never touches the backend instance. *)
Lemma run_steps_backend pipeline_index args pipeline idx out st :
  backend (run_steps pipeline_index args pipeline idx out st).1.2 = backend st.
Proof.
  revert idx out st. induction pipeline as [|name rest IH]; intros idx out st; [reflexivity|].
  cbn [run_steps].
  destruct (py_add_index pipeline_index idx) as [i|e]; [|reflexivity].
  cbn [lift]. rewrite bind_ret.
  destruct (module_member name) as [func|e]; [|reflexivity].
  cbn [lift]. rewrite bind_ret.
  unfold bind at 1. unfold call at 1.
  destruct (func args _ (world st)) as [[r|e] w]; [|reflexivity].
  destruct (py_or r (VDict ∅)); try reflexivity.
  specialize (IH (S idx) (d ∪ <["pipeline_index" := i]> out)
                (after st w)).
  destruct (run_steps _ _ rest _ _ _) as [[fl st'] log]. exact IH.
Qed.

(** What the loop records: the steps it called, in pipeline order, and
    never a clearing of the partial pipeline; a loop that runs through
    called every step. *)
Lemma run_steps_log pipeline_index args pipeline idx out st :
  let '(fl, _, log) := run_steps pipeline_index args pipeline idx out st in
  omap step_name log = take (length log) pipeline ∧
  filter is_clean log = [] ∧
  (length log ≤ length pipeline)%nat ∧
  (∀ out', fl = Ok (Next out') → length log = length pipeline).
Proof.
  revert idx out st. induction pipeline as [|name rest IH]; intros idx out st.
  { cbn. repeat split; auto. }
  cbn [run_steps].
  destruct (py_add_index pipeline_index idx) as [i|e];
    [|cbn; repeat split; auto with lia; discriminate].
  cbn [lift]. rewrite bind_ret.
  destruct (module_member name) as [func|e];
    [|cbn; repeat split; auto with lia; discriminate].
  cbn [lift]. rewrite bind_ret.
  unfold bind at 1. unfold call at 1.
  destruct (func args _ (world st)) as [[r|e] w];
    [|cbn; repeat split; auto with lia; discriminate].
  destruct (py_or r (VDict ∅));
    try (cbn; repeat split; auto with lia; discriminate).
  specialize (IH (S idx) (d ∪ <["pipeline_index" := i]> out)
                (after st w)).
  destruct (run_steps _ _ rest _ _ _) as [[fl st'] log].
  destruct IH as (Hnames & Hclean & Hlen & Hnext).
  cbn. rewrite Hnames. repeat split; auto with lia.
  intros out' Hfl. now rewrite (Hnext out' Hfl).
Qed.

(** Running a pipeline in two parts: the second part starts where the
    first left the context and the counter, unless the first returned. *)
Lemma run_steps_app pipeline_index args first second idx out st :
  run_steps pipeline_index args (first ++ second) idx out st =
    match run_steps pipeline_index args first idx out st with
    | (Ok (Next out'), st', log) =>
        let '(fl, st'', log') :=
          run_steps pipeline_index args second (idx + length first) out' st' in
        (fl, st'', log ++ log')
    | other => other
    end.
Proof.
  revert idx out st. induction first as [|name rest IH]; intros idx out st.
  { cbn. rewrite Nat.add_0_r.
    now destruct (run_steps _ _ second _ _ _) as [[fl st'] log]. }
  cbn [app run_steps].
  destruct (py_add_index pipeline_index idx) as [i|e]; [|reflexivity].
  cbn [lift]. rewrite !bind_ret.
  destruct (module_member name) as [func|e]; [|reflexivity].
  cbn [lift]. rewrite !bind_ret.
  unfold bind, call.
  destruct (func args _ (world st)) as [[r|e] w]; [|reflexivity].
  destruct (py_or r (VDict ∅)); try reflexivity.
  rewrite IH. cbn [length]. rewrite Nat.add_succ_r.
  destruct (run_steps _ _ rest _ _ _) as [[[[out'|v]|e] st'] log]; try reflexivity.
  now destruct (run_steps _ _ second _ _ _) as [[fl st''] log'].
Qed.

(** *** run_pipeline *)

(** A context can be set up only around a strategy instance that has a
    [request]. *)
Lemma initial_context_strategy self kwargs out :
  initial_context self kwargs = Ok out →
  ∃ attrs, strategy self = VObj attrs.
Proof.
  unfold initial_context, getattr. destruct (strategy self); try discriminate. eauto.
Qed.

(** [run_pipeline] once its arguments are bound and its context is set
    up: the loop, then the clearing of the partial pipeline if the loop ran
    through. *)
Lemma run_pipeline_unfold pipeline pos kw st pipeline_index args kwargs out attrs :
  bind_params pos kw = Ok (pipeline_index, args, kwargs) →
  initial_context (backend st) kwargs = Ok out →
  strategy (backend st) = VObj attrs →
  run_pipeline pipeline pos kw st =
    match run_steps pipeline_index args pipeline 0 out st with
    | (Ok (Next out'), st', log) =>
        match strategy_clean_partial_pipeline attrs (world st') with
        | (Ok _, w) => (Ok (VDict out'), after st' w, log ++ [EvClean])
        | (Raise e, w) => (Raise e, after st' w, log ++ [EvClean])
        end
    | (Ok (Return v), st', log) => (Ok v, st', log ++ [])
    | (Raise e, st', log) => (Raise e, st', log)
    end.
Proof.
  intros Hb Hi Hs. unfold run_pipeline.
  rewrite (bind_lift_ok _ _ _ _ Hb). unfold run_pipeline_body.
  rewrite bind_get_self, (bind_lift_ok _ _ _ _ Hi).
  unfold bind at 1.
  pose proof (run_steps_backend pipeline_index args pipeline 0 out st) as Hself.
  destruct (run_steps pipeline_index args pipeline 0 out st) as [[[[out'|v]|e] st'] log];
    [|reflexivity..].
  cbn in Hself. rewrite bind_get_self, Hself, Hs.
  unfold bind, call_method, call.
  destruct (strategy_clean_partial_pipeline attrs (world st')) as [[v|e] w]; reflexivity.
Qed.

(** C4: a run of the executor clears the partial pipeline once when its
    loop runs through all steps, and not at all when a step cuts the loop
    short or anything raises before the end of the loop. *)
Theorem clean_partial_pipeline_iff_completed pipeline pos kw st :
  length (filter is_clean (run_pipeline pipeline pos kw st).2) =
    match loop_of_run pipeline pos kw st with
    | Ok (Next _) => 1%nat
    | Ok (Return _) | Raise _ => 0%nat
    end.
Proof.
  unfold loop_of_run.
  destruct (bind_params pos kw) as [[[pipeline_index args] kwargs]|e] eqn:Hb.
  2:{ unfold run_pipeline. now rewrite (bind_lift_raise _ _ _ _ Hb). }
  destruct (initial_context (backend st) kwargs) as [out|e] eqn:Hi.
  2:{ unfold run_pipeline. rewrite (bind_lift_ok _ _ _ _ Hb).
      unfold run_pipeline_body. rewrite bind_get_self.
      now rewrite (bind_lift_raise _ _ _ _ Hi). }
  destruct (initial_context_strategy _ _ _ Hi) as [attrs Hs].
  rewrite (run_pipeline_unfold _ _ _ _ _ _ _ _ _ Hb Hi Hs).
  pose proof (run_steps_log pipeline_index args pipeline 0 out st) as Hlog.
  destruct (run_steps pipeline_index args pipeline 0 out st) as [[[[out'|v]|e] st'] log];
    destruct Hlog as (_ & Hclean & _); cbn [fst snd].
  - destruct (strategy_clean_partial_pipeline attrs (world st')) as [[v|e] w];
      cbn [snd]; now rewrite filter_app, Hclean.
  - now rewrite app_nil_r, Hclean.
  - now rewrite Hclean.
Qed.

(** C2, as the code has it: when the steps before position [k] completed
    and the step at [k] returns a truthy value that is no mapping, the run
    returns that very value, and the calls it made are those of the steps
    up to [k] and nothing else: no later step, no clearing.  (A falsy
    value is read as an empty mapping and the loop goes on.) *)
Theorem truthy_non_mapping_result_ends_run first name rest pos kw st
    pipeline_index args kwargs out0 out st1 log1 i func v w :
  bind_params pos kw = Ok (pipeline_index, args, kwargs) →
  initial_context (backend st) kwargs = Ok out0 →
  run_steps pipeline_index args first 0 out0 st = (Ok (Next out), st1, log1) →
  py_add_index pipeline_index (length first) = Ok i →
  module_member name = Ok func →
  func args (<["pipeline_index" := i]> out) (world st1) = (Ok v, w) →
  truthy v = true →
  is_dict v = false →
  ∃ log,
    run_pipeline (first ++ name :: rest) pos kw st = (Ok v, after st1 w, log) ∧
    omap step_name log = first ++ [name] ∧
    filter is_clean log = [].
Proof.
  intros Hb Hi Hfirst Hidx Hf Hcall Hv Hd.
  destruct (initial_context_strategy _ _ _ Hi) as [attrs Hs].
  rewrite (run_pipeline_unfold _ _ _ _ _ _ _ _ _ Hb Hi Hs).
  rewrite run_steps_app, Hfirst. cbn [Nat.add].
  rewrite (run_steps_cons _ _ _ _ _ _ _ _ _ Hidx Hf). cbn zeta. rewrite Hcall.
  assert (py_or v (VDict ∅) = v) as -> by (unfold py_or; now rewrite Hv).
  pose proof (run_steps_log pipeline_index args first 0 out0 st) as Hlog.
  rewrite Hfirst in Hlog. destruct Hlog as (Hnames & Hclean & _ & Hlen).
  specialize (Hlen out eq_refl). rewrite Hlen, firstn_all in Hnames.
  destruct v; try discriminate Hd;
    (eexists; split; [reflexivity|]; rewrite app_nil_r, omap_app, filter_app, Hnames, Hclean;
     split; reflexivity).
Qed.

(** The enumerate counter can be added to the start index at one position
    exactly when it can at every position. *)
Lemma py_add_index_total pipeline_index idx i idx' :
  py_add_index pipeline_index idx = Ok i →
  ∃ i', py_add_index pipeline_index idx' = Ok i'.
Proof. destruct pipeline_index; simpl; try discriminate; eauto. Qed.

(** A loop whose steps all return something falsy runs through, and only
    rewrites [pipeline_index], which ends as the index of the last step. *)
Lemma run_steps_falsy pipeline_index args pipeline idx out st i0 :
  py_add_index pipeline_index 0 = Ok i0 →
  (∀ name, name ∈ pipeline →
     ∃ func, module_member name = Ok func ∧
       ∀ a ctx w, ∃ v w', func a ctx w = (Ok v, w') ∧ truthy v = false) →
  ∃ st' log,
    run_steps pipeline_index args pipeline idx out st =
      (Ok (Next match pipeline with
                | [] => out
                | _ :: _ =>
                    match py_add_index pipeline_index (idx + length pipeline - 1) with
                    | Ok last => <["pipeline_index" := last]> out
                    | Raise _ => out
                    end
                end), st', log).
Proof.
  intros Hi0. revert idx out st.
  induction pipeline as [|name rest IH]; intros idx out st Hsteps; [cbn; eauto|].
  destruct (py_add_index_total _ _ _ idx Hi0) as [i Hi].
  destruct (Hsteps name) as (func & Hf & Hfalsy); [left|].
  rewrite (run_steps_cons _ _ _ _ _ _ _ _ _ Hi Hf). cbn zeta.
  destruct (Hfalsy args (<["pipeline_index" := i]> out) (world st)) as (v & w & -> & Hv).
  assert (py_or v (VDict ∅) = VDict ∅) as -> by (unfold py_or; now rewrite Hv).
  rewrite (left_id_L ∅ (∪)).
  destruct (IH (S idx) (<["pipeline_index" := i]> out) (after st w)) as (st' & log & ->).
  { intros n Hn. apply Hsteps. now right. }
  do 2 eexists. f_equal. f_equal. f_equal. f_equal.
  destruct rest as [|name' rest].
  - cbn [length]. replace (idx + 1 - 1)%nat with idx by lia. now rewrite Hi.
  - cbn [length]. replace (S idx + S (length rest) - 1)%nat
      with (idx + S (S (length rest)) - 1)%nat by lia.
    destruct (py_add_index_total _ _ _ (idx + S (S (length rest)) - 1) Hi0) as [last ->].
    apply insert_insert_eq.
Qed.

(** C6: when every step of the pipeline returns an empty (falsy) result
    and the clearing of the partial pipeline returns, the run returns the
    initial context, that is the keyword arguments with the backend's name
    removed and the defaults for strategy, backend and request, in which
    only [pipeline_index] is changed: it is the absolute index of the last
    step (and no entry at all for an empty pipeline). *)
Theorem empty_results_keep_initial_context pipeline pos kw st
    pipeline_index args kwargs out0 last :
  bind_params pos kw = Ok (pipeline_index, args, kwargs) →
  initial_context (backend st) kwargs = Ok out0 →
  py_add_index pipeline_index (length pipeline - 1) = Ok last →
  (∀ name, name ∈ pipeline →
     ∃ func, module_member name = Ok func ∧
       ∀ a ctx w, ∃ v w', func a ctx w = (Ok v, w') ∧ truthy v = false) →
  (∀ attrs w, ∃ v w', strategy_clean_partial_pipeline attrs w = (Ok v, w')) →
  ∃ st' log,
    run_pipeline pipeline pos kw st =
      (Ok (VDict match pipeline with
                 | [] => out0
                 | _ :: _ => <["pipeline_index" := last]> out0
                 end), st', log) ∧
    backend st' = backend st.
Proof.
  intros Hb Hi Hlast Hsteps Hclean.
  destruct (initial_context_strategy _ _ _ Hi) as [attrs Hs].
  rewrite (run_pipeline_unfold _ _ _ _ _ _ _ _ _ Hb Hi Hs).
  destruct (py_add_index_total _ _ _ 0 Hlast) as [i0 Hi0].
  pose proof (run_steps_backend pipeline_index args pipeline 0 out0 st) as Hself.
  destruct (run_steps_falsy _ args pipeline 0 out0 st _ Hi0 Hsteps) as (st' & log & Hrun).
  rewrite Hrun in Hself |- *. cbn in Hself.
  destruct (Hclean attrs (world st')) as (v & w & ->).
  exists (after st' w), (log ++ [EvClean]). split; [|exact Hself].
  destruct pipeline; [reflexivity|]. cbn [Nat.add]. now rewrite Hlast.
Qed.

(** *** Resuming a pipeline *)

(** The loop sees the start index and the counter only through their sum. *)
Lemma run_steps_shift pipeline_index pipeline_index' args pipeline idx idx' out st :
  (∀ j, py_add_index pipeline_index (idx + j) = py_add_index pipeline_index' (idx' + j)) →
  run_steps pipeline_index args pipeline idx out st =
  run_steps pipeline_index' args pipeline idx' out st.
Proof.
  revert idx idx' out st.
  induction pipeline as [|name rest IH]; intros idx idx' out st Hsum; [reflexivity|].
  cbn [run_steps]. pose proof (Hsum 0%nat) as H0. rewrite !Nat.add_0_r in H0. rewrite H0.
  destruct (py_add_index pipeline_index' idx') as [i|e]; [|reflexivity].
  cbn [lift]. rewrite !bind_ret.
  destruct (module_member name) as [func|e]; [|reflexivity].
  cbn [lift]. rewrite !bind_ret. unfold bind, call.
  destruct (func args _ (world st)) as [[r|e] w]; [|reflexivity].
  destruct (py_or r (VDict ∅)); try reflexivity.
  rewrite (IH (S idx) (S idx')); [reflexivity|].
  intros j. specialize (Hsum (S j)). now rewrite !Nat.add_succ_r in Hsum.
Qed.

(** The first round overwrites [pipeline_index]: whether the context
    had such an entry makes no difference to a loop with a step to run. *)
Lemma run_steps_delete_index pipeline_index args pipeline idx out st :
  pipeline ≠ [] →
  run_steps pipeline_index args pipeline idx (delete "pipeline_index" out) st =
  run_steps pipeline_index args pipeline idx out st.
Proof.
  destruct pipeline as [|name rest]; [congruence|]. intros _.
  cbn [run_steps].
  destruct (py_add_index pipeline_index idx) as [i|e]; [|reflexivity].
  cbn [lift]. rewrite !bind_ret. now rewrite insert_delete_eq.
Qed.

(** With such steps, how the loop ends depends on the context only. *)
Lemma run_steps_pure pipeline_index args pipeline idx out st st' :
  (∀ name func, name ∈ pipeline → module_member name = Ok func → pure_step func) →
  (run_steps pipeline_index args pipeline idx out st).1.1 =
  (run_steps pipeline_index args pipeline idx out st').1.1.
Proof.
  revert idx out st st'.
  induction pipeline as [|name rest IH]; intros idx out st st' Hpure; [reflexivity|].
  cbn [run_steps].
  destruct (py_add_index pipeline_index idx) as [i|e]; [|reflexivity].
  cbn [lift]. rewrite !bind_ret.
  destruct (module_member name) as [func|e] eqn:Hf; [|reflexivity].
  cbn [lift]. rewrite !bind_ret. unfold bind, call.
  pose proof (Hpure name func ltac:(left) Hf args
                (<["pipeline_index" := i]> out) (world st) (world st')) as Hsame.
  destruct (func args _ (world st)) as [r w], (func args _ (world st')) as [r' w'].
  cbn in Hsame. subst r'. destruct r as [r|e]; [|reflexivity].
  destruct (py_or r (VDict ∅)); try reflexivity.
  specialize (IH (S idx) (d ∪ <["pipeline_index" := i]> out) (after st w) (after st' w')).
  destruct (run_steps _ _ rest _ _ (after st w)) as [[fl s1] l1],
           (run_steps _ _ rest _ _ (after st' w')) as [[fl' s2] l2].
  cbn in *. apply IH. intros n f Hn. apply Hpure. now right.
Qed.

(** The loop only adds and overwrites entries of the context. *)
Lemma run_steps_keys pipeline_index args pipeline idx out st out' st' log key :
  run_steps pipeline_index args pipeline idx out st = (Ok (Next out'), st', log) →
  is_Some (out !! key) → is_Some (out' !! key).
Proof.
  revert idx out st log.
  induction pipeline as [|name rest IH]; intros idx out st log; [now intros [= <- _ _]|].
  cbn [run_steps].
  destruct (py_add_index pipeline_index idx) as [i|e]; [|discriminate].
  cbn [lift]. rewrite !bind_ret.
  destruct (module_member name) as [func|e]; [|discriminate].
  cbn [lift]. rewrite !bind_ret. unfold bind, call.
  destruct (func args _ (world st)) as [[r|e] w]; [|discriminate].
  destruct (py_or r (VDict ∅)); try discriminate.
  destruct (run_steps _ _ rest _ _ _) as [[fl s1] l1] eqn:Hrest.
  intros [= -> -> <-] Hkey. apply (IH _ _ _ _ Hrest).
  rewrite lookup_union.
  assert (is_Some (<["pipeline_index" := i]> out !! key)) as [y ->].
  { rewrite lookup_insert. case_decide; [eauto|exact Hkey]. }
  destruct (d !! key); cbn; eauto.
Qed.

(** [setdefault] leaves an entry under the key, keeps all others, and
    changes nothing when there is one already. *)
Lemma setdefault_lookup_eq key v (d : dict) :
  setdefault key v d !! key = Some (default v (d !! key)).
Proof.
  unfold setdefault. destruct (d !! key) eqn:Hk; [now rewrite Hk|].
  apply lookup_insert_eq.
Qed.

Lemma setdefault_lookup_ne key key' v (d : dict) :
  key ≠ key' → setdefault key v d !! key' = d !! key'.
Proof.
  intros Hne. unfold setdefault. destruct (d !! key); [reflexivity|].
  now apply lookup_insert_ne.
Qed.

Lemma setdefault_keeps key key' v (d : dict) :
  is_Some (d !! key') → is_Some (setdefault key v d !! key').
Proof.
  intros Hk. destruct (decide (key = key')) as [->|Hne].
  - rewrite setdefault_lookup_eq. eauto.
  - now rewrite setdefault_lookup_ne.
Qed.

Lemma setdefault_present key v (d : dict) :
  is_Some (d !! key) → setdefault key v d = d.
Proof. intros [x Hx]. unfold setdefault. now rewrite Hx. Qed.

(** Setting up the context again changes nothing in a context that kept
    the entries of a first set-up and has none under the backend's name. *)
Lemma initial_context_again self kwargs out0 out :
  initial_context self kwargs = Ok out0 →
  (∀ key, is_Some (out0 !! key) → is_Some (out !! key)) →
  out !! name self = None →
  initial_context self out = Ok out.
Proof.
  unfold initial_context, res_bind.
  destruct (getattr (strategy self) "request") as [request|e]; [|discriminate].
  intros [= <-] Hkeys Hname.
  assert (is_Some (out !! "request")) as Hreq.
  { apply Hkeys. rewrite setdefault_lookup_eq. eauto. }
  assert (is_Some (out !! "backend")) as Hbk.
  { apply Hkeys, setdefault_keeps. rewrite setdefault_lookup_eq. eauto. }
  assert (delete (name self) (setdefault "strategy" (strategy self) out) = out) as ->.
  { destruct (decide (name self = "strategy")) as [Heq|Hne].
    - rewrite Heq in *. unfold setdefault. rewrite Hname.
      rewrite delete_insert_eq. now apply delete_id.
    - rewrite setdefault_present; [now apply delete_id|].
      apply Hkeys. do 2 apply setdefault_keeps.
      rewrite lookup_delete_ne by done. rewrite setdefault_lookup_eq. eauto. }
  now rewrite (setdefault_present "backend" _ _ Hbk), (setdefault_present "request" _ _ Hreq).
Qed.

(** What the loop returns early is never a mapping. *)
Lemma run_steps_return pipeline_index args pipeline idx out st v st' log :
  run_steps pipeline_index args pipeline idx out st = (Ok (Return v), st', log) →
  is_dict v = false.
Proof.
  revert idx out st log.
  induction pipeline as [|name rest IH]; intros idx out st log; [discriminate|].
  cbn [run_steps].
  destruct (py_add_index pipeline_index idx) as [i|e]; [|discriminate].
  cbn [lift]. rewrite !bind_ret.
  destruct (module_member name) as [func|e]; [|discriminate].
  cbn [lift]. rewrite !bind_ret. unfold bind, call.
  destruct (func args _ (world st)) as [[r|e] w]; [|discriminate].
  destruct (py_or r (VDict ∅)) eqn:Hr; try (now intros [= <- _ _]).
  destruct (run_steps _ _ rest _ _ _) as [[fl s1] l1] eqn:Hrest.
  intros [= -> -> <-]. exact (IH _ _ _ _ Hrest).
Qed.

(** Binding a call that passes the start index in first position. *)
Lemma bind_params_positional x rest kw b :
  bind_params (x :: rest) kw = Ok b → b = (x, rest, kw).
Proof.
  unfold bind_params. destruct (_ || _); [discriminate|].
  destruct (has_key kw "pipeline_index"); [discriminate|]. now intros [= <-].
Qed.

(** A run that returns a value either ran through its loop and cleared
    the partial pipeline, or was cut short by a step. *)
Lemma run_pipeline_ok_inv pipeline x rest kw st v st' log :
  run_pipeline pipeline (x :: rest) kw st = (Ok v, st', log) →
  bind_params (x :: rest) kw = Ok (x, rest, kw) ∧
  ∃ out0 attrs,
    initial_context (backend st) kw = Ok out0 ∧
    strategy (backend st) = VObj attrs ∧
    ((∃ out s1 l1 r w,
        run_steps x rest pipeline 0 out0 st = (Ok (Next out), s1, l1) ∧
        strategy_clean_partial_pipeline attrs (world s1) = (Ok r, w) ∧
        v = VDict out ∧ st' = after s1 w ∧ log = l1 ++ [EvClean]) ∨
     (∃ l1,
        run_steps x rest pipeline 0 out0 st = (Ok (Return v), st', l1) ∧
        is_dict v = false ∧ log = l1)).
Proof.
  intros Hrun.
  destruct (bind_params (x :: rest) kw) as [b|e] eqn:Hb.
  2:{ unfold run_pipeline in Hrun. now rewrite (bind_lift_raise _ _ _ _ Hb) in Hrun. }
  pose proof (bind_params_positional _ _ _ _ Hb) as ->. split; [reflexivity|].
  destruct (initial_context (backend st) kw) as [out0|e] eqn:Hi.
  2:{ unfold run_pipeline in Hrun. rewrite (bind_lift_ok _ _ _ _ Hb) in Hrun.
      unfold run_pipeline_body in Hrun. rewrite bind_get_self in Hrun.
      now rewrite (bind_lift_raise _ _ _ _ Hi) in Hrun. }
  destruct (initial_context_strategy _ _ _ Hi) as [attrs Hs].
  exists out0, attrs. split; [reflexivity|]. split; [exact Hs|].
  rewrite (run_pipeline_unfold _ _ _ _ _ _ _ _ _ Hb Hi Hs) in Hrun.
  destruct (run_steps x rest pipeline 0 out0 st) as [[[[out|r]|e] s1] l1] eqn:Hloop;
    [| |discriminate].
  - left. destruct (strategy_clean_partial_pipeline attrs (world s1)) as [[r|e] w] eqn:Hc;
      [|discriminate].
    injection Hrun as <- <- <-. now exists out, s1, l1, r, w.
  - right. injection Hrun as <- <- <-. exists l1.
    rewrite app_nil_r. repeat split. exact (run_steps_return _ _ _ _ _ _ _ _ _ Hloop).
Qed.

(** C8, as the code has it: let the steps be pure, the clearing of the
    partial pipeline return, and the first part of the pipeline run from
    index 0 to a context that holds no entry under the backend's name and
    none named self or pipeline.  Then running the rest, which has a step,
    from the index after the first part, seeded with that context (its
    [pipeline_index] entry giving way to the start index), ends as the
    whole pipeline run once from index 0 ends: with the same final
    context, the same early result or the same exception. *)
Theorem resumed_run_agrees_with_full_run first second args kw st out1 st1 log1 :
  (∀ name func, name ∈ first ++ second → module_member name = Ok func → pure_step func) →
  (∀ attrs w, ∃ r w', strategy_clean_partial_pipeline attrs w = (Ok r, w')) →
  second ≠ [] →
  run_pipeline first (VInt 0 :: args) kw st = (Ok (VDict out1), st1, log1) →
  out1 !! name (backend st) = None →
  out1 !! "self" = None →
  out1 !! "pipeline" = None →
  (run_pipeline second (VInt (Z.of_nat (length first)) :: args)
     (delete "pipeline_index" out1) st1).1.1 =
  (run_pipeline (first ++ second) (VInt 0 :: args) kw st).1.1.
Proof.
  intros Hpure Hclean Hsecond Hfirst Hname Hself Hpipe.
  apply run_pipeline_ok_inv in Hfirst as (Hb & out0 & attrs & Hi & Hs & Hfirst).
  destruct Hfirst as [(out & s1 & l1 & r & w & Hloop1 & _ & [= <-] & -> & _)
                     |(l1 & _ & Hd & _)]; [|discriminate Hd].
  pose proof (run_steps_backend (VInt 0) args first 0 out0 st) as Hself1.
  rewrite Hloop1 in Hself1. cbn in Hself1.
  assert (bind_params (VInt (Z.of_nat (length first)) :: args) (delete "pipeline_index" out1)
          = Ok (VInt (Z.of_nat (length first)), args, delete "pipeline_index" out1)) as Hb'.
  { unfold bind_params, has_key.
    rewrite !lookup_delete_ne by discriminate. rewrite Hself, Hpipe, lookup_delete_eq.
    rewrite !bool_decide_eq_false_2 by (now intros [? [=]]). reflexivity. }
  assert (initial_context (backend (after s1 w)) (delete "pipeline_index" out1)
          = Ok (delete "pipeline_index" out1)) as Hi'.
  { cbn [after backend]. rewrite Hself1.
    apply (initial_context_again _ _ _ _ Hi).
    - intros key Hkey.
      destruct (decide (key = "pipeline_index")) as [->|Hne].
      + exfalso. revert Hkey. unfold initial_context, res_bind in Hi.
        destruct (getattr _ "request"); [|discriminate]. injection Hi as <-.
        rewrite !setdefault_lookup_ne by discriminate.
        unfold bind_params in Hb. destruct (_ || _); [discriminate|].
        destruct (has_key kw "pipeline_index") eqn:Hk; [discriminate|].
        apply bool_decide_eq_false in Hk.
        destruct (decide (name (backend st) = "pipeline_index")) as [->|Hn].
        * rewrite lookup_delete_eq. now intros [? [=]].
        * rewrite lookup_delete_ne by done.
          rewrite setdefault_lookup_ne by discriminate. exact Hk.
      + rewrite lookup_delete_ne by done.
        exact (run_steps_keys _ _ _ _ _ _ _ _ _ _ Hloop1 Hkey).
    - destruct (decide ("pipeline_index" = name (backend st))) as [<-|Hne].
      + apply lookup_delete_eq.
      + now rewrite lookup_delete_ne. }
  assert (strategy (backend (after s1 w)) = VObj attrs) as Hs'.
  { cbn [after backend]. now rewrite Hself1. }
  rewrite (run_pipeline_unfold _ _ _ _ _ _ _ _ _ Hb' Hi' Hs').
  rewrite (run_pipeline_unfold _ _ _ _ _ _ _ _ _ Hb Hi Hs).
  rewrite run_steps_app, Hloop1. cbn [Nat.add].
  rewrite (run_steps_shift (VInt 0) (VInt (Z.of_nat (length first))) _ _ _ 0).
  2:{ intros j. cbn. now rewrite Nat2Z.inj_add. }
  rewrite (run_steps_delete_index _ _ _ _ _ _ Hsecond).
  pose proof (run_steps_pure (VInt (Z.of_nat (length first))) args second 0 out1
                (after s1 w) s1) as Hsame.
  destruct (run_steps _ args second 0 out1 (after s1 w)) as [[fl s2] l2],
           (run_steps _ args second 0 out1 s1) as [[fl' s2'] l2'].
  cbn [fst] in Hsame. rewrite Hsame.
  2:{ intros n f Hn. apply Hpure. rewrite elem_of_app. now right. }
  destruct fl' as [[out|r']|e]; [|reflexivity..].
  destruct (Hclean attrs (world s2)) as (r2 & w2 & ->).
  now destruct (Hclean attrs (world s2')) as (r3 & w3 & ->).
Qed.

(** *** The set-up of the context *)

(** The first call a loop records carries the context it started from,
    with [pipeline_index] set. *)
Lemma run_steps_first_event pipeline_index args pipeline idx out st :
  match (run_steps pipeline_index args pipeline idx out st).2 with
  | EvStep _ _ ctx :: _ => ∃ i, ctx = <["pipeline_index" := i]> out
  | EvClean :: _ => False
  | [] => True
  end.
Proof.
  destruct pipeline as [|name rest]; [exact I|]. cbn [run_steps].
  destruct (py_add_index pipeline_index idx) as [i|e]; [|exact I].
  cbn [lift]. rewrite !bind_ret.
  destruct (module_member name) as [func|e]; [|exact I].
  cbn [lift]. rewrite !bind_ret. unfold bind, call.
  destruct (func args _ (world st)) as [[r|e] w]; [|cbn; eauto].
  destruct (py_or r (VDict ∅)); try (cbn; eauto).
  destruct (run_steps _ _ rest _ _ _) as [[fl s1] l1]. cbn. eauto.
Qed.

(** C9, as the code has it: the set-up of a run removes the entry under
    the backend's name from the copied keyword arguments, whether or not
    they carry a backend entry, so the context holds none unless that name
    is backend or request, which the defaults put back; a backend entry
    that was passed is kept; without one, a truthy removed value becomes
    the backend entry, and the backend itself does otherwise; and the first
    step called receives this context with [pipeline_index] set. *)
Theorem backend_name_entry_removed_at_set_up pipeline pos kw st
    pipeline_index args kwargs out0 :
  bind_params pos kw = Ok (pipeline_index, args, kwargs) →
  initial_context (backend st) kwargs = Ok out0 →
  (name (backend st) ≠ "backend" → name (backend st) ≠ "request" →
   out0 !! name (backend st) = None) ∧
  (∀ b, kwargs !! "backend" = Some b → name (backend st) ≠ "backend" →
   out0 !! "backend" = Some b) ∧
  (∀ popped, kwargs !! name (backend st) = Some popped → truthy popped = true →
   kwargs !! "backend" = None ∨ name (backend st) = "backend" →
   out0 !! "backend" = Some popped) ∧
  (kwargs !! "backend" = None → truthy (dict_get kwargs (name (backend st))) = false →
   name (backend st) ≠ "strategy" →
   out0 !! "backend" = Some (as_value (backend st))) ∧
  match (run_pipeline pipeline pos kw st).2 with
  | EvStep _ _ ctx :: _ => ∃ i, ctx = <["pipeline_index" := i]> out0
  | _ => True
  end.
Proof.
  intros Hb Hi. destruct (initial_context_strategy _ _ _ Hi) as [attrs Hs].
  rewrite (run_pipeline_unfold _ _ _ _ _ _ _ _ _ Hb Hi Hs).
  pose proof (run_steps_first_event pipeline_index args pipeline 0 out0 st) as Hfirst.
  unfold initial_context, res_bind in Hi.
  destruct (getattr _ "request") as [request|e]; [|discriminate]. injection Hi as <-.
  set (self := backend st) in *.
  repeat split.
  - intros Hn1 Hn2. rewrite !setdefault_lookup_ne by done. apply lookup_delete_eq.
  - intros b Hbk Hn. rewrite setdefault_lookup_ne by discriminate.
    rewrite setdefault_lookup_eq. rewrite lookup_delete_ne by done.
    rewrite setdefault_lookup_ne by discriminate. now rewrite Hbk.
  - intros popped Hpop Ht Hbk. rewrite setdefault_lookup_ne by discriminate.
    rewrite setdefault_lookup_eq.
    assert (dict_get (setdefault "strategy" (strategy self) kwargs) (name self) = popped) as ->.
    { unfold dict_get. destruct (decide ("strategy" = name self)) as [Heq|Hne].
      - rewrite <- Heq in *. rewrite setdefault_lookup_eq. now rewrite Hpop.
      - rewrite setdefault_lookup_ne by done. now rewrite Hpop. }
    assert (delete (name self) (setdefault "strategy" (strategy self) kwargs) !! "backend"
            = None) as ->.
    { destruct Hbk as [Hbk| ->]; [|apply lookup_delete_eq].
      destruct (decide (name self = "backend")) as [->|Hne]; [apply lookup_delete_eq|].
      rewrite lookup_delete_ne by done. now rewrite setdefault_lookup_ne by discriminate. }
    unfold py_or. now rewrite Ht.
  - intros Hbk Hf Hn. rewrite setdefault_lookup_ne by discriminate.
    rewrite setdefault_lookup_eq.
    assert (dict_get (setdefault "strategy" (strategy self) kwargs) (name self)
            = dict_get kwargs (name self)) as ->.
    { unfold dict_get. now rewrite setdefault_lookup_ne by done. }
    assert (delete (name self) (setdefault "strategy" (strategy self) kwargs) !! "backend"
            = None) as ->.
    { destruct (decide (name self = "backend")) as [->|Hne]; [apply lookup_delete_eq|].
      rewrite lookup_delete_ne by done. now rewrite setdefault_lookup_ne by discriminate. }
    unfold py_or. now rewrite Hf.
  - destruct (run_steps _ _ pipeline _ _ _) as [[[[out|r]|e] s1] l1]; cbn [snd] in *.
    + destruct (strategy_clean_partial_pipeline attrs (world s1)) as [[v|e] w]; cbn [snd];
        destruct l1 as [|[] l1]; cbn; auto; contradiction.
    + rewrite app_nil_r. destruct l1 as [|[] l1]; auto.
    + destruct l1 as [|[] l1]; auto.
Qed.

(** *** authenticate *)

Ltac norm_self :=
  cbn [backend world with_data with_redirect_uri with_strategy
       name strategy redirect_uri data].

Ltac norm_self_in H :=
  cbn [backend world with_data with_redirect_uri with_strategy
       name strategy redirect_uri data] in H.

Lemma bind_set_self {B} (self : BaseAuth) (f : () → M B) st :
  bind (set_self self) f st = f () {| backend := self; world := world st |}.
Proof. unfold bind, set_self. now destruct (f () _) as [[r st'] log]. Qed.

(** C7, as the code has it: when a backend entry that is passed has a
    name attribute, [authenticate] answers None, raises nothing, changes
    nothing and calls no step as soon as the backend entry is missing, or
    its name is not the name of this backend, or the strategy or the
    response entry is missing. *)
Theorem authenticate_not_applicable args kwargs st :
  (∀ b, kwargs !! "backend" = Some b → ∃ n, getattr b "name" = Ok n) →
  kwargs !! "backend" = None ∨
  (∃ b n, kwargs !! "backend" = Some b ∧ getattr b "name" = Ok n ∧
          n ≠ VStr (name (backend st))) ∨
  kwargs !! "strategy" = None ∨
  kwargs !! "response" = None →
  authenticate args kwargs st = (Ok VNone, st, []).
Proof.
  intros Hty Hcase. unfold authenticate. rewrite bind_get_self.
  assert (validate (backend st) kwargs = Ok false) as Hv.
  { unfold validate. destruct (kwargs !! "backend") as [b|] eqn:Hbk; [|reflexivity].
    destruct (Hty b eq_refl) as [n Hn]. rewrite Hn. cbn [res_bind]. f_equal.
    rewrite negb_false_iff, !orb_true_iff, !negb_true_iff.
    destruct Hcase as [[=]|[(b' & n' & [= <-] & Hn' & Hne)|[Hk|Hk]]].
    - left. left. rewrite Hn in Hn'. injection Hn' as <-.
      destruct (py_ne_str n (name (backend st))) eqn:Heq; [reflexivity|].
      now apply py_ne_str_false in Heq.
    - left. right. unfold has_key. rewrite Hk. apply bool_decide_eq_false_2. now intros [? [=]].
    - right. unfold has_key. rewrite Hk. apply bool_decide_eq_false_2. now intros [? [=]]. }
  now rewrite (bind_lift_ok _ _ _ _ Hv).
Qed.

(** Lines 87-93 case by case. *)
Lemma unwrap_user_cases out :
  match out with
  | VDict d =>
      match d !! "user" with
      | Some (VObj user) =>
          unwrap_user out =
            Ok (VObj (<["is_new" := dict_get d "is_new"]>
                     (<["social_user" := dict_get d "social"]> user)))
      | Some user =>
          unwrap_user out = if truthy user then Raise AttributeError else Ok user
      | None => unwrap_user out = Ok VNone
      end
  | _ => unwrap_user out = Ok out
  end.
Proof.
  destruct out as [| | | | |d|]; try reflexivity.
  unfold unwrap_user, dict_get.
  destruct (d !! "user") as [user|]; cbn [from_option id]; [|reflexivity].
  destruct (truthy user) eqn:Ht; destruct user; try discriminate Ht; reflexivity.
Qed.

(** C1, as the code has it: in a run of [authenticate] whose checks pass
    and which reaches the executor, a result of the executor that is no
    mapping is returned as it is; from a mapping the user entry is
    returned: a user instance comes back with [social_user] and [is_new]
    set to the social and is_new entries of the mapping, a falsy entry
    comes back as it is, and None comes back when there is no such entry. *)
Theorem authenticate_unwraps_executor_result args kwargs st sattrs d w1 steps w2
    steps' pipeline_index args' kwargs' r st' log :
  validate (backend st) kwargs = Ok true →
  py_or (strategy (backend st)) (dict_get kwargs "strategy") = VObj sattrs →
  strategy_request_data sattrs (world st) = (Ok d, w1) →
  strategy_get_pipeline sattrs w1 = (Ok steps, w2) →
  match setdefault "is_new" (VBool false) kwargs !! "pipeline_index" with
  | Some start => slice_from start steps
  | None => Ok steps
  end = Ok steps' →
  bind_params args (setdefault "is_new" (VBool false) kwargs)
    = Ok (pipeline_index, args', kwargs') →
  run_pipeline steps' (pipeline_index :: args') kwargs'
    {| backend := bound_to (backend st) kwargs d; world := w2 |} = (r, st', log) →
  ∃ result,
    authenticate args kwargs st = (result, st', log) ∧
    match r with
    | Ok (VDict out) =>
        match out !! "user" with
        | Some (VObj user) =>
            result = Ok (VObj (<["is_new" := dict_get out "is_new"]>
                              (<["social_user" := dict_get out "social"]> user)))
        | Some user => result = if truthy user then Raise AttributeError else Ok user
        | None => result = Ok VNone
        end
    | Ok v => result = Ok v
    | Raise e => result = Raise e
    end.
Proof.
  intros Hv Hs Hd Hp Hsl Hb Hrun.
  exists (res_bind r unwrap_user). split.
  - unfold authenticate. rewrite bind_get_self, (bind_lift_ok _ _ _ _ Hv). cbn [negb].
    rewrite bind_set_self, bind_get_self. norm_self.
    rewrite bind_set_self, bind_get_self. norm_self.
    rewrite Hs. unfold call_method at 1, call, bind at 1. norm_self. rewrite Hd.
    unfold after. norm_self.
    rewrite bind_set_self, bind_get_self. norm_self.
    unfold call_method at 1, call, bind at 1. norm_self. rewrite Hp.
    unfold after. norm_self.
    assert (∀ st0, (match setdefault "is_new" (VBool false) kwargs !! "pipeline_index" with
                    | Some start => lift (slice_from start steps)
                    | None => ret steps
                    end) st0 = (Ok steps', st0, [])) as Hsl'.
    { intros st0. destruct (_ !! "pipeline_index"); [now rewrite Hsl|].
      now injection Hsl as ->. }
    unfold bind at 1. rewrite Hsl'.
    unfold pipeline. rewrite (bind_lift_ok _ _ _ _ Hb).
    unfold bind. unfold bound_to in Hrun. norm_self_in Hrun.
    rewrite Hs in Hrun. rewrite Hrun.
    destruct r as [v|e]; [|reflexivity]. cbn [res_bind].
    destruct (unwrap_user v); cbn; now rewrite ?app_nil_r.
  - destruct r as [v|e]; [|reflexivity]. cbn [res_bind].
    pose proof (unwrap_user_cases v) as Hcases.
    destruct v; exact Hcases.
Qed.

End Properties.







(** ** The statements on the concrete environment *)

(** The backend [foo] with an empty string stored under [FOO_X] and 1
    under [X]: the empty string is the setting. *)
Lemma setting_falls_back_on_absence_witness :
  setting "X" VNone
    (demo_state "foo" (<["FOO_X" := VStr ""]> (<["X" := VInt 1]> ∅)) []) =
  (Ok (VStr ""), demo_state "foo" (<["FOO_X" := VStr ""]> (<["X" := VInt 1]> ∅)) [], []).
Proof.
  exact (setting_falls_back_on_absence (env := demo) "X" VNone
           (demo_state "foo" (<["FOO_X" := VStr ""]> (<["X" := VInt 1]> ∅)) []) _ eq_refl).
Defined.

(** The bare key is read when nothing is stored under the namespaced one,
    and the default when nothing is stored at all. *)
Example setting_bare_key :
  (setting "X" VNone (demo_state "foo" (<["X" := VInt 0]> ∅) [])).1.1 = Ok (VInt 0).
Proof. reflexivity. Qed.

Example setting_default :
  (setting "X" (VStr "fallback") (demo_state "foo" ∅ [])).1.1 = Ok (VStr "fallback").
Proof. reflexivity. Qed.

(** *** auth_allowed *)

Example auth_allowed_nothing_configured :
  auth_allowed VNone ∅ (demo_state "foo" ∅ []) = (Ok true, demo_state "foo" ∅ [], []).
Proof. reflexivity. Qed.

Example auth_allowed_other_email :
  auth_allowed VNone (details_of "b@x.com") only_email_a = (Ok false, only_email_a, []).
Proof. reflexivity. Qed.

Example auth_allowed_domain :
  auth_allowed VNone (details_of "b@x.com") only_domain_x = (Ok true, only_domain_x, []).
Proof. reflexivity. Qed.

(** C5 fails as stated: the email bob is in the email allow-list, and
    [auth_allowed] does not answer true, it raises IndexError. *)
Lemma auth_allowed_listed_email_without_at_sign :
  setting "WHITELISTED_EMAILS" (VList []) only_email_bob
    = (Ok (VList [VStr "bob"]), only_email_bob, []) ∧
  details_of "bob" !! "email" = Some (VStr "bob") ∧
  VStr "bob" ∈ [VStr "bob"] ∧
  auth_allowed VNone (details_of "bob") only_email_bob = (Raise IndexError, only_email_bob, []).
Proof. repeat split. left. Qed.

(** The domain allow-list [x.com] and the email b@x.com. *)
Lemma auth_allowed_by_allow_lists_witness :
  ∃ allowed,
    auth_allowed VNone (details_of "b@x.com") only_domain_x = (Ok allowed, only_domain_x, []) ∧
    (allowed = true ↔ VStr "b@x.com" ∈ [] ∨ VStr "x.com" ∈ [VStr "x.com"]).
Proof.
  apply (proj2 (proj2 (auth_allowed_by_allow_lists (env := demo) VNone
                         (details_of "b@x.com") only_domain_x
                         (VList []) (VList [VStr "x.com"]) eq_refl eq_refl))
           [] [VStr "x.com"] "b@x.com" "b" "x.com");
    [reflexivity | reflexivity | right; discriminate | reflexivity | reflexivity].
Defined.

(** With the domain allow-list [x.com], b@x.com gets an answer and bob
    ends in IndexError. *)
Lemma auth_allowed_total_given_at_sign_witness :
  (∃ allowed,
     auth_allowed VNone (details_of "b@x.com") only_domain_x
       = (Ok allowed, only_domain_x, [])) ∧
  auth_allowed VNone (details_of "bob") only_domain_x = (Raise IndexError, only_domain_x, []).
Proof.
  split.
  - apply (proj1 (auth_allowed_total_given_at_sign (env := demo) VNone
                    (details_of "b@x.com") only_domain_x [] [VStr "x.com"] eq_refl eq_refl
                    (λ v Hv _, ex_intro _ "b@x.com" (eq_sym (Some_inj _ _ Hv))))).
    intros email [= <-] _ _. now exists ("b", "x.com").
  - apply (proj2 (auth_allowed_total_given_at_sign (env := demo) VNone
                    (details_of "bob") only_domain_x [] [VStr "x.com"] eq_refl eq_refl
                    (λ v Hv _, ex_intro _ "bob" (eq_sym (Some_inj _ _ Hv)))) "bob");
      [reflexivity | discriminate | right; discriminate | reflexivity].
Defined.

(** *** run_pipeline *)

Example run_completed :
  run_pipeline ["get_details"; "get_username"] [] ∅ foo =
  (Ok (VDict (<["username" := VStr "bob"]>
             (<["details" := VDict (details_of "b@x.com")]>
             (<["pipeline_index" := VInt 1]> foo_context)))),
   cleared foo 1,
   [EvStep "get_details" [] (<["pipeline_index" := VInt 0]> foo_context);
    EvStep "get_username" []
      (<["details" := VDict (details_of "b@x.com")]>
      (<["pipeline_index" := VInt 1]> foo_context));
    EvClean]).
Proof. reflexivity. Qed.

(** The scenario of the redirect: step 2 of 4 returns a string. *)
Lemma truthy_non_mapping_result_ends_run_witness :
  ∃ log,
    run_pipeline (["get_details"] ++ "redirect" :: ["load_user"; "nothing"]) [] ∅ foo
      = (Ok (VStr "/consent"), foo, log) ∧
    omap step_name log = ["get_details"] ++ ["redirect"] ∧
    filter is_clean log = [].
Proof.
  eapply (truthy_non_mapping_result_ends_run (env := demo)
            ["get_details"] "redirect" ["load_user"; "nothing"] [] ∅ foo
            (VInt 0) [] ∅ foo_context _ foo _ _ _ (VStr "/consent") 0%nat);
    reflexivity.
Defined.

(** C2 fails as stated: the step at position 0 returns False, which is no
    mapping; the next step is called all the same, and the run returns the
    context and not False. *)
Lemma falsy_non_mapping_result_goes_on :
  (∃ func, demo_member "declined" = Ok func ∧
           ∀ a ctx w, func a ctx w = (Ok (VBool false), w)) ∧
  is_dict (VBool false) = false ∧
  ∃ out st' log,
    run_pipeline ["declined"; "get_username"] [] ∅ foo = (Ok (VDict out), st', log) ∧
    omap step_name log = ["declined"; "get_username"].
Proof.
  split; [eexists; split; reflexivity|]. split; [reflexivity|].
  do 3 eexists. split; reflexivity.
Qed.

Example clean_once_when_completed :
  filter is_clean (run_pipeline ["get_details"; "nothing"] [] ∅ foo).2 = [EvClean].
Proof. reflexivity. Qed.

Example no_clean_after_redirect :
  filter is_clean
    (run_pipeline ["get_details"; "redirect"; "load_user"; "nothing"] [] ∅ foo).2 = [].
Proof. reflexivity. Qed.

(** Three steps that return None, False and None. *)
Lemma demo_falsy_steps name :
  name ∈ ["nothing"; "declined"; "nothing"] →
  ∃ func, demo_member name = Ok func ∧
    ∀ (a : list value) (ctx : dict) (w : nat),
      ∃ v w', func a ctx w = (Ok v, w') ∧ truthy v = false.
Proof.
  intros Hin. repeat (apply elem_of_cons in Hin as [->|Hin]);
    [ | | |now apply elem_of_nil in Hin];
    (eexists; split; [reflexivity|]; intros a ctx w; do 2 eexists; split; reflexivity).
Qed.

(** Resumed at index 4, they leave the context with [pipeline_index] 6. *)
Lemma empty_results_keep_initial_context_witness :
  ∃ st' log,
    run_pipeline ["nothing"; "declined"; "nothing"] [VInt 4] ∅ foo
      = (Ok (VDict (<["pipeline_index" := VInt 6]> foo_context)), st', log) ∧
    backend st' = backend foo.
Proof.
  apply (empty_results_keep_initial_context (env := demo)
           ["nothing"; "declined"; "nothing"] [VInt 4] ∅ foo (VInt 4) [] ∅
           foo_context (VInt 6)).
  - reflexivity.
  - reflexivity.
  - reflexivity.
  - exact demo_falsy_steps.
  - intros attrs w. now exists VNone, (S w).
Defined.

(** *** Resuming *)

(** No step of the concrete environment looks at the world. *)
Lemma demo_steps_pure name func :
  demo_member name = Ok func → pure_step (env := demo) func.
Proof.
  unfold demo_member.
  repeat (match goal with |- context [if ?c then _ else _] => destruct c end;
          [intros [= <-]; intros a ctx w w'; reflexivity|]).
  discriminate.
Qed.

(** Three steps of the backend [foo], split after the first. *)
Lemma resumed_run_agrees_with_full_run_witness :
  ∃ out1 log1,
    run_pipeline ["get_details"] [VInt 0] ∅ foo = (Ok (VDict out1), cleared foo 1, log1) ∧
    (run_pipeline ["get_username"; "load_user"] [VInt 1]
       (delete "pipeline_index" out1) (cleared foo 1)).1.1 =
    (run_pipeline (["get_details"] ++ ["get_username"; "load_user"]) [VInt 0] ∅ foo).1.1.
Proof.
  do 2 eexists. split; [reflexivity|].
  eapply (resumed_run_agrees_with_full_run (env := demo)
            ["get_details"] ["get_username"; "load_user"] [] ∅ foo).
  - intros name func _. apply demo_steps_pure.
  - intros attrs w. now exists VNone, (S w).
  - discriminate.
  - reflexivity.
  - reflexivity.
  - reflexivity.
  - reflexivity.
Defined.

(** C8 fails as stated: with the backend [username] the first step
    contributes an entry named username; the run of the whole pipeline
    keeps it to the end, and the run resumed after the first step removes
    it when it sets up its context. *)
Lemma resumed_run_loses_backend_name_entry :
  ∃ out1 st1 log1 full resumed,
    run_pipeline ["get_username"] [VInt 0] ∅ username = (Ok (VDict out1), st1, log1) ∧
    (run_pipeline (["get_username"] ++ ["nothing"]) [VInt 0] ∅ username).1.1
      = Ok (VDict full) ∧
    (run_pipeline ["nothing"] [VInt 1] (delete "pipeline_index" out1) st1).1.1
      = Ok (VDict resumed) ∧
    full !! "username" = Some (VStr "bob") ∧
    resumed !! "username" = None.
Proof. do 5 eexists. repeat split; reflexivity. Qed.

(** *** The set-up of the context *)

(** A run of [foo] that is passed an entry named foo: the first step does
    not see it. *)
Lemma backend_name_entry_removed_at_set_up_witness :
  foo_context !! "foo" = None ∧
  (run_pipeline ["get_details"] [] (<["foo" := VBool false]> ∅) foo).2 !! 0%nat
    = Some (EvStep "get_details" [] (<["pipeline_index" := VInt 0]> foo_context)).
Proof.
  assert (bind_params [] (<["foo" := VBool false]> ∅)
          = Ok (VInt 0, [], <["foo" := VBool false]> ∅)) as Hb by reflexivity.
  assert (initial_context (backend foo) (<["foo" := VBool false]> ∅) = Ok foo_context)
    as Hi by reflexivity.
  destruct (backend_name_entry_removed_at_set_up (env := demo) ["get_details"] []
              (<["foo" := VBool false]> ∅) foo (VInt 0) [] (<["foo" := VBool false]> ∅)
              foo_context Hb Hi) as (Hgone & _ & _ & _ & Hfirst).
  split; [apply Hgone; discriminate | reflexivity].
Defined.

Example truthy_flag_becomes_backend :
  ∃ out, initial_context (backend foo) (<["foo" := VStr "flag"]> ∅) = Ok out ∧
         out !! "backend" = Some (VStr "flag") ∧ out !! "foo" = None.
Proof. eexists. repeat split; reflexivity. Qed.

(** C9 fails as stated: the second step of a run of the backend
    [username] receives an entry named username, which the first step
    contributed. *)
Lemma later_step_receives_backend_name_entry :
  ∃ ctx,
    (run_pipeline ["get_username"; "nothing"] [] ∅ username).2 !! 1%nat
      = Some (EvStep "nothing" [] ctx) ∧
    ctx !! name (backend username) = Some (VStr "bob").
Proof. eexists. split; reflexivity. Qed.

(** *** authenticate *)

(** Keyword arguments that name the backend twitter, given to [foo]. *)
Lemma authenticate_not_applicable_witness :
  authenticate [] twitter_credentials foo = (Ok VNone, foo, []).
Proof.
  apply (authenticate_not_applicable (env := demo) [] twitter_credentials foo).
  - intros b [= <-]. now exists (VStr "twitter").
  - right. left. exists (as_value (backend (demo_state "twitter" ∅ []))), (VStr "twitter").
    repeat split. discriminate.
Defined.

Example authenticate_without_backend :
  authenticate [VStr "bob"; VStr "secret"] ∅ foo = (Ok VNone, foo, []).
Proof. reflexivity. Qed.

(** C7 fails as stated: the keyword arguments name the backend by a
    string and carry no strategy; [authenticate] raises AttributeError. *)
Lemma authenticate_backend_without_name :
  (<["backend" := VStr "twitter"]> ∅ : dict) !! "strategy" = None ∧
  authenticate [] (<["backend" := VStr "twitter"]> ∅) foo = (Raise AttributeError, foo, []).
Proof. split; reflexivity. Qed.

(** The scenario of the four steps: the user comes back annotated. *)
Lemma authenticate_unwraps_executor_result_witness :
  ∃ st' log,
    authenticate [] (credentials ["get_details"; "get_username"; "nothing"; "load_user"])
      (foo_with ["get_details"; "get_username"; "nothing"; "load_user"]) =
    (Ok (VObj (<["is_new" := VBool true]>
              (<["social_user" := VStr "bob@foo"]>
              (<["username" := VStr "bob"]> ∅)))), st', log).
Proof.
  edestruct (authenticate_unwraps_executor_result (env := demo) []
               (credentials ["get_details"; "get_username"; "nothing"; "load_user"])
               (foo_with ["get_details"; "get_username"; "nothing"; "load_user"]))
    as (result & Hauth & Hres); [reflexivity..|].
  cbn in Hres. rewrite Hres in Hauth. eauto.
Defined.

(** The scenario of the redirect, through [authenticate]. *)
Example authenticate_returns_redirect :
  ∃ st' log,
    authenticate [] (credentials ["get_details"; "redirect"; "load_user"; "nothing"])
      (foo_with ["get_details"; "redirect"; "load_user"; "nothing"]) =
    (Ok (VStr "/consent"), st', log) ∧
    filter is_clean log = [].
Proof. do 2 eexists. split; reflexivity. Qed.

(** C1 fails as stated: the executor returns a mapping that has no user
    entry, and [authenticate] returns None, not that mapping. *)
Lemma authenticate_mapping_without_user :
  ∃ out st' log,
    run_pipeline ["get_details"] [VInt 0]
      (setdefault "is_new" (VBool false) (credentials ["get_details"]))
      (@Build_state demo
         (bound_to (backend (foo_with ["get_details"])) (credentials ["get_details"]) (VDict ∅))
         0%nat)
      = (Ok (VDict out), st', log) ∧
    out !! "user" = None ∧
    authenticate [] (credentials ["get_details"]) (foo_with ["get_details"])
      = (Ok VNone, st', log).
Proof. do 3 eexists. repeat split; reflexivity. Qed.

(** ** More properties of the executor *)

Section Executor.

Context {env : Env}.

(** The calls a loop records, one by one: the step at that position of the
    pipeline, with the positional arguments of the run and, under
    [pipeline_index], the start index plus the position. *)
Lemma run_steps_calls pipeline_index args pipeline idx out st j e :
  (run_steps pipeline_index args pipeline idx out st).2 !! j = Some e →
  ∃ name ctx i,
    e = EvStep name args ctx ∧
    pipeline !! j = Some name ∧
    py_add_index pipeline_index (idx + j) = Ok i ∧
    ctx !! "pipeline_index" = Some i ∧
    (∀ key, is_Some (out !! key) → is_Some (ctx !! key)).
Proof.
  revert idx out st j.
  induction pipeline as [|name rest IH]; intros idx out st j; [now cbn|].
  cbn [run_steps].
  destruct (py_add_index pipeline_index idx) as [i|err] eqn:Hi; [|now cbn].
  cbn [lift]. rewrite !bind_ret.
  destruct (module_member name) as [func|err]; [|now cbn].
  cbn [lift]. rewrite !bind_ret. unfold bind, call.
  assert (∀ ev, ([EvStep name args (<["pipeline_index" := i]> out)] ++ ev) !! j = Some e →
          (∀ j', ev !! j' = Some e →
             ∃ name' ctx i',
               e = EvStep name' args ctx ∧ rest !! j' = Some name' ∧
               py_add_index pipeline_index (S idx + j') = Ok i' ∧
               ctx !! "pipeline_index" = Some i' ∧
               (∀ key, is_Some (out !! key) → is_Some (ctx !! key))) →
          ∃ name' ctx i',
            e = EvStep name' args ctx ∧ (name :: rest) !! j = Some name' ∧
            py_add_index pipeline_index (idx + j) = Ok i' ∧
            ctx !! "pipeline_index" = Some i' ∧
            (∀ key, is_Some (out !! key) → is_Some (ctx !! key))) as Hcons.
  { intros ev Hj Hrest. destruct j as [|j'].
    - injection Hj as <-. exists name, (<["pipeline_index" := i]> out), i.
      rewrite Nat.add_0_r, lookup_insert_eq. repeat split; auto.
      intros key Hkey. rewrite lookup_insert. case_decide; eauto.
    - cbn in Hj. destruct (Hrest j' Hj) as (n' & ctx & i' & -> & Hn & Hadd & Hpi & Hkeys).
      exists n', ctx, i'. rewrite Nat.add_succ_r. repeat split; auto. }
  destruct (func args _ (world st)) as [[r|err] w];
    [|intros Hj; apply (Hcons [] Hj); intros j' Hj'; now rewrite lookup_nil in Hj'].
  destruct (py_or r (VDict ∅)) eqn:Hr;
    try (intros Hj; cbn [snd] in Hj; apply (Hcons [] Hj);
         intros j' Hj'; now rewrite lookup_nil in Hj').
  specialize (IH (S idx) (d ∪ <["pipeline_index" := i]> out) (after st w)).
  destruct (run_steps _ _ rest _ _ _) as [[fl st'] log]. cbn [snd] in *.
  intros Hj. apply (Hcons log Hj). intros j' Hj'.
  destruct (IH j' Hj') as (n' & ctx & i' & -> & Hn & Hadd & Hpi & Hkeys).
  exists n', ctx, i'. repeat split; auto.
  intros key Hkey. apply Hkeys. rewrite lookup_union.
  assert (is_Some (<["pipeline_index" := i]> out !! key)) as [y ->].
  { rewrite lookup_insert. case_decide; eauto. }
  destruct (d !! key); cbn; eauto.
Qed.

(** An entry that no step returns is as the loop found it, when the loop
    runs through. *)
Lemma run_steps_frame pipeline_index args pipeline idx out st out' st' log key :
  key ≠ "pipeline_index" →
  (∀ name func, name ∈ pipeline → module_member name = Ok func →
     ∀ a ctx w d w', func a ctx w = (Ok (VDict d), w') → d !! key = None) →
  run_steps pipeline_index args pipeline idx out st = (Ok (Next out'), st', log) →
  out' !! key = out !! key.
Proof.
  intros Hkey. revert idx out st log.
  induction pipeline as [|name rest IH]; intros idx out st log Hsteps;
    [now intros [= <- _ _]|].
  cbn [run_steps].
  destruct (py_add_index pipeline_index idx) as [i|err]; [|discriminate].
  cbn [lift]. rewrite !bind_ret.
  destruct (module_member name) as [func|err] eqn:Hf; [|discriminate].
  cbn [lift]. rewrite !bind_ret. unfold bind, call.
  destruct (func args _ (world st)) as [[r|err] w] eqn:Hcall; [|discriminate].
  destruct (py_or r (VDict ∅)) eqn:Hr; try discriminate.
  destruct (run_steps _ _ rest _ _ _) as [[fl s1] l1] eqn:Hrest.
  intros [= -> -> <-].
  rewrite (IH _ _ _ _ (λ n f Hn, Hsteps n f (list_elem_of_further _ _ _ Hn)) Hrest).
  rewrite lookup_union, lookup_insert_ne by done.
  assert (d !! key = None) as ->; [|now rewrite (left_id_L None (∪))].
  unfold py_or in Hr. destruct (truthy r).
  - subst r. exact (Hsteps name func ltac:(left) Hf _ _ _ _ _ Hcall).
  - injection Hr as <-. apply lookup_empty.
Qed.

(** A run once its arguments are bound, whether or not its context can
    be set up. *)
Lemma run_pipeline_bound pipeline pos kw st pipeline_index args kwargs :
  bind_params pos kw = Ok (pipeline_index, args, kwargs) →
  run_pipeline pipeline pos kw st =
    run_pipeline_body pipeline pipeline_index args kwargs st.
Proof. intros Hb. unfold run_pipeline. now rewrite (bind_lift_ok _ _ _ _ Hb). Qed.

(** The calls of a whole run: those of its loop, then the clearing when
    the loop ran through. *)
Lemma run_pipeline_log pipeline pos kw st pipeline_index args kwargs out0 :
  bind_params pos kw = Ok (pipeline_index, args, kwargs) →
  initial_context (backend st) kwargs = Ok out0 →
  (run_pipeline pipeline pos kw st).2 =
    (run_steps pipeline_index args pipeline 0 out0 st).2 ++
    match (run_steps pipeline_index args pipeline 0 out0 st).1.1 with
    | Ok (Next _) => [EvClean]
    | _ => []
    end.
Proof.
  intros Hb Hi. destruct (initial_context_strategy _ _ _ Hi) as [attrs Hs].
  rewrite (run_pipeline_unfold _ _ _ _ _ _ _ _ _ Hb Hi Hs).
  destruct (run_steps _ _ pipeline _ _ _) as [[[[out|v]|e] s1] l1]; cbn [fst snd].
  - now destruct (strategy_clean_partial_pipeline attrs (world s1)) as [[v|e] w].
  - reflexivity.
  - now rewrite app_nil_r.
Qed.

(** A run whose context cannot be set up calls nothing. *)
Lemma run_pipeline_no_context pipeline pos kw st pipeline_index args kwargs e :
  bind_params pos kw = Ok (pipeline_index, args, kwargs) →
  initial_context (backend st) kwargs = Raise e →
  run_pipeline pipeline pos kw st = (Raise e, st, []).
Proof.
  intros Hb Hi. rewrite (run_pipeline_bound _ _ _ _ _ _ _ Hb).
  unfold run_pipeline_body. rewrite bind_get_self.
  now rewrite (bind_lift_raise _ _ _ _ Hi).
Qed.

(** X1: a step that raises ends the run with its exception: the steps
    before it were called, it was called, no later step is, and the partial
    pipeline is not cleared. *)
Theorem step_exception_ends_run first func_name rest pos kw st
    pipeline_index args kwargs out0 out st1 log1 i func e w :
  bind_params pos kw = Ok (pipeline_index, args, kwargs) →
  initial_context (backend st) kwargs = Ok out0 →
  run_steps pipeline_index args first 0 out0 st = (Ok (Next out), st1, log1) →
  py_add_index pipeline_index (length first) = Ok i →
  module_member func_name = Ok func →
  func args (<["pipeline_index" := i]> out) (world st1) = (Raise e, w) →
  ∃ log,
    run_pipeline (first ++ func_name :: rest) pos kw st = (Raise e, after st1 w, log) ∧
    omap step_name log = first ++ [func_name] ∧
    filter is_clean log = [].
Proof.
  intros Hb Hi Hfirst Hidx Hf Hcall.
  destruct (initial_context_strategy _ _ _ Hi) as [attrs Hs].
  rewrite (run_pipeline_unfold _ _ _ _ _ _ _ _ _ Hb Hi Hs).
  rewrite run_steps_app, Hfirst. cbn [Nat.add].
  rewrite (run_steps_cons _ _ _ _ _ _ _ _ _ Hidx Hf). cbn zeta. rewrite Hcall.
  pose proof (run_steps_log pipeline_index args first 0 out0 st) as Hlog.
  rewrite Hfirst in Hlog. destruct Hlog as (Hnames & Hclean & _ & Hlen).
  specialize (Hlen out eq_refl). rewrite Hlen, firstn_all in Hnames.
  eexists. split; [reflexivity|].
  rewrite omap_app, filter_app, Hnames, Hclean. split; reflexivity.
Qed.

(** X2: a step address that cannot be resolved ends the run with the
    exception of the resolver: the steps before it were called, the step
    itself and the later ones are not, and the partial pipeline is not
    cleared. *)
Theorem unresolved_step_ends_run first func_name rest pos kw st
    pipeline_index args kwargs out0 out st1 log1 i e :
  bind_params pos kw = Ok (pipeline_index, args, kwargs) →
  initial_context (backend st) kwargs = Ok out0 →
  run_steps pipeline_index args first 0 out0 st = (Ok (Next out), st1, log1) →
  py_add_index pipeline_index (length first) = Ok i →
  module_member func_name = Raise e →
  ∃ log,
    run_pipeline (first ++ func_name :: rest) pos kw st = (Raise e, st1, log) ∧
    omap step_name log = first ∧
    filter is_clean log = [].
Proof.
  intros Hb Hi Hfirst Hidx Hf.
  destruct (initial_context_strategy _ _ _ Hi) as [attrs Hs].
  rewrite (run_pipeline_unfold _ _ _ _ _ _ _ _ _ Hb Hi Hs).
  rewrite run_steps_app, Hfirst. cbn [Nat.add run_steps].
  rewrite (bind_lift_ok _ _ _ _ Hidx), (bind_lift_raise _ _ _ _ Hf).
  pose proof (run_steps_log pipeline_index args first 0 out0 st) as Hlog.
  rewrite Hfirst in Hlog. destruct Hlog as (Hnames & Hclean & _ & Hlen).
  specialize (Hlen out eq_refl). rewrite Hlen, firstn_all in Hnames.
  eexists. split; [reflexivity|]. rewrite app_nil_r. now split.
Qed.

(** The calls of a whole run, one by one. *)
Lemma run_pipeline_calls pipeline pos kw st pipeline_index args kwargs j e :
  bind_params pos kw = Ok (pipeline_index, args, kwargs) →
  (run_pipeline pipeline pos kw st).2 !! j = Some e →
  match e with
  | EvStep func_name a ctx =>
      pipeline !! j = Some func_name ∧ a = args ∧
      ∃ i, py_add_index pipeline_index j = Ok i ∧ ctx !! "pipeline_index" = Some i
  | EvClean => j = length pipeline
  end.
Proof.
  intros Hb Hj.
  destruct (initial_context (backend st) kwargs) as [out0|err] eqn:Hi.
  2:{ rewrite (run_pipeline_no_context _ _ _ _ _ _ _ _ Hb Hi) in Hj. discriminate Hj. }
  rewrite (run_pipeline_log _ _ _ _ _ _ _ _ Hb Hi) in Hj.
  pose proof (run_steps_log pipeline_index args pipeline 0 out0 st) as Hlog.
  pose proof (run_steps_calls pipeline_index args pipeline 0 out0 st j e) as Hcalls.
  destruct (run_steps _ _ pipeline _ _ _) as [[fl s1] l1]. cbn [fst snd] in *.
  destruct Hlog as (_ & _ & _ & Hlen).
  apply lookup_app_Some in Hj as [Hj|[Hge Hj]].
  - destruct (Hcalls Hj) as (n & ctx & i & -> & Hn & Hadd & Hpi & _). eauto.
  - destruct fl as [[out|v]|err]; try (now rewrite lookup_nil in Hj).
    apply list_lookup_singleton_Some in Hj as [Hz <-].
    rewrite <- (Hlen out eq_refl). lia.
Qed.

(** X3: the calls a run makes are, in order, the steps of the pipeline
    from its first one on, each with the positional arguments of the run
    and with [pipeline_index] equal to the start index plus its position in
    this run; a clearing of the partial pipeline comes only after a call of
    every step. *)
Theorem recorded_calls_follow_pipeline pipeline pos kw st pipeline_index args kwargs j e :
  bind_params pos kw = Ok (pipeline_index, args, kwargs) →
  (run_pipeline pipeline pos kw st).2 !! j = Some e →
  match e with
  | EvStep func_name a ctx =>
      pipeline !! j = Some func_name ∧ a = args ∧
      ∃ i, py_add_index pipeline_index j = Ok i ∧ ctx !! "pipeline_index" = Some i
  | EvClean => j = length pipeline
  end.
Proof. apply run_pipeline_calls. Qed.

(** X4: every step of a run is called with entries named backend, request
    and pipeline_index, and with an entry for every keyword argument of the
    run except the one named like the backend. *)
Theorem every_step_receives_defaults pipeline pos kw st pipeline_index args kwargs
    func_name a ctx :
  bind_params pos kw = Ok (pipeline_index, args, kwargs) →
  EvStep func_name a ctx ∈ (run_pipeline pipeline pos kw st).2 →
  is_Some (ctx !! "backend") ∧ is_Some (ctx !! "request") ∧
  is_Some (ctx !! "pipeline_index") ∧
  ∀ key, key ≠ name (backend st) → is_Some (kwargs !! key) → is_Some (ctx !! key).
Proof.
  intros Hb Hin.
  destruct (initial_context (backend st) kwargs) as [out0|err] eqn:Hi.
  2:{ rewrite (run_pipeline_no_context _ _ _ _ _ _ _ _ Hb Hi) in Hin.
      now apply elem_of_nil in Hin. }
  rewrite (run_pipeline_log _ _ _ _ _ _ _ _ Hb Hi) in Hin.
  apply elem_of_app in Hin as [Hin|Hin].
  2:{ destruct (_.1.1) as [[]|]; [|now apply elem_of_nil in Hin..].
      apply list_elem_of_singleton in Hin. discriminate Hin. }
  apply list_elem_of_lookup in Hin as [j Hj].
  destruct (run_steps_calls _ _ _ _ _ _ _ _ Hj) as (n & c & i & [= <- <- <-] & _ & _ & Hpi & Hkeys).
  unfold initial_context, res_bind in Hi.
  destruct (getattr _ "request") as [request|]; [|discriminate]. injection Hi as <-.
  repeat split.
  - apply Hkeys, setdefault_keeps. rewrite setdefault_lookup_eq. eauto.
  - apply Hkeys. rewrite setdefault_lookup_eq. eauto.
  - rewrite Hpi. eauto.
  - intros key Hne Hkey. apply Hkeys. do 2 apply setdefault_keeps.
    rewrite lookup_delete_ne by done. now apply setdefault_keeps.
Qed.

(** The entries no step returns, in the result of a completed run. *)
Lemma run_pipeline_frame pipeline pos kw st pipeline_index args kwargs
    out0 out st' log key :
  bind_params pos kw = Ok (pipeline_index, args, kwargs) →
  initial_context (backend st) kwargs = Ok out0 →
  key ≠ "pipeline_index" →
  (∀ func_name func, func_name ∈ pipeline → module_member func_name = Ok func →
     ∀ a ctx w d w', func a ctx w = (Ok (VDict d), w') → d !! key = None) →
  run_pipeline pipeline pos kw st = (Ok (VDict out), st', log) →
  out !! key = out0 !! key.
Proof.
  intros Hb Hi Hkey Hsteps Hrun.
  destruct (initial_context_strategy _ _ _ Hi) as [attrs Hs].
  rewrite (run_pipeline_unfold _ _ _ _ _ _ _ _ _ Hb Hi Hs) in Hrun.
  destruct (run_steps pipeline_index args pipeline 0 out0 st)
    as [[[[out'|v]|err] s1] l1] eqn:Hloop; [| |discriminate].
  - destruct (strategy_clean_partial_pipeline attrs (world s1)) as [[v|err] w];
      [|discriminate].
    injection Hrun as <- _ _. exact (run_steps_frame _ _ _ _ _ _ _ _ _ _ Hkey Hsteps Hloop).
  - injection Hrun as -> _ _.
    now pose proof (run_steps_return _ _ _ _ _ _ _ _ _ Hloop).
Qed.

(** X5: in the context a completed run returns, an entry other than
    pipeline_index that no step of the pipeline ever returns is what the
    set-up made it: a keyword argument of the caller that no step
    overwrites reaches the result unchanged. *)
Theorem untouched_entries_survive pipeline pos kw st pipeline_index args kwargs
    out0 out st' log key :
  bind_params pos kw = Ok (pipeline_index, args, kwargs) →
  initial_context (backend st) kwargs = Ok out0 →
  key ≠ "pipeline_index" →
  (∀ func_name func, func_name ∈ pipeline → module_member func_name = Ok func →
     ∀ a ctx w d w', func a ctx w = (Ok (VDict d), w') → d !! key = None) →
  run_pipeline pipeline pos kw st = (Ok (VDict out), st', log) →
  out !! key = out0 !! key.
Proof. apply run_pipeline_frame. Qed.


End Executor.

(** ** More properties of authenticate *)

Section Entry.

Context {env : Env}.

(** Neither a run of the executor nor the unwrapping of its result
    rebinds an attribute of the backend. *)
Lemma run_pipeline_backend steps pos kw st :
  backend (run_pipeline steps pos kw st).1.2 = backend st.
Proof.
  unfold run_pipeline.
  destruct (bind_params pos kw) as [[[pipeline_index args] kwargs]|e]; [|reflexivity].
  cbn [lift]. rewrite bind_ret. unfold run_pipeline_body. rewrite bind_get_self.
  destruct (initial_context (backend st) kwargs) as [out|e]; [|reflexivity].
  cbn [lift]. rewrite bind_ret. unfold bind at 1.
  pose proof (run_steps_backend pipeline_index args steps 0 out st) as Hself.
  destruct (run_steps _ _ steps _ _ _) as [[[[out'|v]|e] s1] l1]; cbn in Hself |- *;
    try exact Hself.
  destruct (strategy (backend s1)) as [| | | | | |sattrs]; try exact Hself.
  unfold bind, call_method, call.
  destruct (strategy_clean_partial_pipeline sattrs (world s1)) as [[v|e] w]; exact Hself.
Qed.

Lemma pipeline_backend steps pos kw st :
  backend (pipeline steps pos kw st).1.2 = backend st.
Proof.
  unfold pipeline.
  destruct (bind_params pos kw) as [[[pipeline_index args] kwargs]|e]; [|reflexivity].
  cbn [lift]. rewrite bind_ret. unfold bind.
  pose proof (run_pipeline_backend steps (pipeline_index :: args) kwargs st) as Hself.
  destruct (run_pipeline _ _ _ _) as [[[v|e] s1] l1]; cbn in Hself |- *; [|exact Hself].
  destruct (unwrap_user v); exact Hself.
Qed.

(** The calls of [pipeline] are those of the run it starts. *)
Lemma pipeline_log steps pos kw st pipeline_index args kwargs :
  bind_params pos kw = Ok (pipeline_index, args, kwargs) →
  (pipeline steps pos kw st).2 = (run_pipeline steps (pipeline_index :: args) kwargs st).2.
Proof.
  intros Hb. unfold pipeline. rewrite (bind_lift_ok _ _ _ _ Hb). unfold bind.
  destruct (run_pipeline _ _ _ _) as [[[v|e] s1] l1]; [|reflexivity].
  destruct (unwrap_user v); cbn; apply app_nil_r.
Qed.

(** Arguments that were bound once bind again to the same parameters
    when the start index is passed in first position. *)
Lemma bind_params_again pos kw pipeline_index args kwargs :
  bind_params pos kw = Ok (pipeline_index, args, kwargs) →
  bind_params (pipeline_index :: args) kwargs = Ok (pipeline_index, args, kwargs).
Proof.
  unfold bind_params, has_key.
  destruct (bool_decide (is_Some (kw !! "self"))) eqn:Hs; [discriminate|].
  destruct (bool_decide (is_Some (kw !! "pipeline"))) eqn:Hp; [discriminate|].
  cbn [orb]. destruct pos as [|x rest].
  - intros [= <- <- <-]. rewrite !lookup_delete_ne by discriminate.
    rewrite Hs, Hp, lookup_delete_eq. cbn [orb].
    now rewrite bool_decide_eq_false_2 by (now intros [? [=]]).
  - destruct (bool_decide (is_Some (kw !! "pipeline_index"))) eqn:Hi; [discriminate|].
    intros [= <- <- <-]. now rewrite Hs, Hp, Hi.
Qed.

(** A call of [authenticate] whose checks pass, up to the call of
    [pipeline]. *)
Lemma authenticate_reaches_pipeline args kwargs st sattrs d w1 steps w2 steps' :
  validate (backend st) kwargs = Ok true →
  py_or (strategy (backend st)) (dict_get kwargs "strategy") = VObj sattrs →
  strategy_request_data sattrs (world st) = (Ok d, w1) →
  strategy_get_pipeline sattrs w1 = (Ok steps, w2) →
  match setdefault "is_new" (VBool false) kwargs !! "pipeline_index" with
  | Some start => slice_from start steps
  | None => Ok steps
  end = Ok steps' →
  authenticate args kwargs st =
    pipeline steps' args (setdefault "is_new" (VBool false) kwargs)
      {| backend := bound_to (backend st) kwargs d; world := w2 |}.
Proof.
  intros Hv Hs Hd Hp Hsl.
  unfold authenticate. rewrite bind_get_self, (bind_lift_ok _ _ _ _ Hv). cbn [negb].
  rewrite bind_set_self, bind_get_self. simpl_self.
  rewrite bind_set_self, bind_get_self. simpl_self.
  rewrite Hs. unfold call_method at 1, call, bind at 1. simpl_self. rewrite Hd.
  unfold after. simpl_self.
  rewrite bind_set_self, bind_get_self. simpl_self.
  unfold call_method at 1, call, bind at 1. simpl_self. rewrite Hp.
  unfold after. simpl_self.
  assert (∀ st0, (match setdefault "is_new" (VBool false) kwargs !! "pipeline_index" with
                  | Some start => lift (slice_from start steps)
                  | None => ret steps
                  end) st0 = (Ok steps', st0, [])) as Hsl'.
  { intros st0. destruct (_ !! "pipeline_index"); [now rewrite Hsl|].
    now injection Hsl as ->. }
  unfold bind at 1. rewrite Hsl'. unfold bound_to. simpl_self. rewrite Hs.
  now destruct (pipeline steps' args _ _) as [[r st'] log].
Qed.

(** The backend after a call of [authenticate] whose checks pass,
    however the call ends: [d] is the request data, or the data the
    backend had when the call ended before they were stored. *)
Lemma authenticate_backend args kwargs st :
  validate (backend st) kwargs = Ok true →
  ∃ d, backend (authenticate args kwargs st).1.2 = bound_to (backend st) kwargs d.
Proof.
  intros Hv.
  unfold authenticate. rewrite bind_get_self, (bind_lift_ok _ _ _ _ Hv). cbn [negb].
  rewrite bind_set_self, bind_get_self. simpl_self.
  rewrite bind_set_self, bind_get_self. simpl_self.
  unfold bound_to.
  destruct (py_or (strategy (backend st)) (dict_get kwargs "strategy"))
    as [| | | | | |sattrs]; try (now exists (data (backend st))).
  unfold call_method at 1, call, bind at 1. simpl_self.
  destruct (strategy_request_data sattrs (world st)) as [[d|e] w1];
    [|now exists (data (backend st))].
  unfold after. simpl_self. rewrite bind_set_self, bind_get_self. simpl_self.
  unfold call_method at 1, call, bind at 1. simpl_self.
  destruct (strategy_get_pipeline sattrs w1) as [[steps|e] w2]; [|now exists d].
  unfold after. simpl_self. unfold bind at 1. exists d.
  destruct (setdefault "is_new" (VBool false) kwargs !! "pipeline_index") as [start|].
  - destruct (slice_from start steps) as [steps'|e]; [|reflexivity].
    cbn [lift ret].
    pose proof (pipeline_backend steps' args (setdefault "is_new" (VBool false) kwargs)
                  {| backend := {| name := name (backend st); strategy := VObj sattrs;
                                   redirect_uri := py_or (redirect_uri (backend st))
                                                     (dict_get kwargs "redirect_uri");
                                   data := d |};
                     world := w2 |}) as Hself.
    destruct (pipeline steps' args _ _) as [[r st'] log]. exact Hself.
  - cbn [ret].
    pose proof (pipeline_backend steps args (setdefault "is_new" (VBool false) kwargs)
                  {| backend := {| name := name (backend st); strategy := VObj sattrs;
                                   redirect_uri := py_or (redirect_uri (backend st))
                                                     (dict_get kwargs "redirect_uri");
                                   data := d |};
                     world := w2 |}) as Hself.
    destruct (pipeline steps args _ _) as [[r st'] log]. exact Hself.
Qed.

(** X7: a call of [authenticate] whose checks pass binds the strategy
    and the redirect URI of the keyword arguments only where the backend
    has none: an attribute that is truthy is kept, whatever the keyword
    arguments carry, and this holds however the call ends. *)
Theorem authenticate_keeps_bound_strategy args kwargs st :
  validate (backend st) kwargs = Ok true →
  name (backend (authenticate args kwargs st).1.2) = name (backend st) ∧
  strategy (backend (authenticate args kwargs st).1.2)
    = (if truthy (strategy (backend st)) then strategy (backend st)
       else dict_get kwargs "strategy") ∧
  redirect_uri (backend (authenticate args kwargs st).1.2)
    = (if truthy (redirect_uri (backend st)) then redirect_uri (backend st)
       else dict_get kwargs "redirect_uri").
Proof.
  intros Hv. destruct (authenticate_backend args kwargs st Hv) as [d ->].
  repeat split.
Qed.

(** X8: resuming through [authenticate]: with a start index [k] that is
    not negative passed as the keyword pipeline_index, and no positional
    argument, every step called is the step at its own position in the
    configured pipeline, from position [k] on and in order, and it
    receives that position as pipeline_index. *)
Theorem authenticate_resumes_at_index kwargs st sattrs d w1 steps w2 k j e :
  validate (backend st) kwargs = Ok true →
  py_or (strategy (backend st)) (dict_get kwargs "strategy") = VObj sattrs →
  strategy_request_data sattrs (world st) = (Ok d, w1) →
  strategy_get_pipeline sattrs w1 = (Ok steps, w2) →
  kwargs !! "pipeline_index" = Some (VInt k) →
  (0 ≤ k)%Z →
  (authenticate [] kwargs st).2 !! j = Some e →
  match e with
  | EvStep func_name a ctx =>
      steps !! (Z.to_nat k + j)%nat = Some func_name ∧ a = [] ∧
      ctx !! "pipeline_index" = Some (VInt (k + Z.of_nat j))
  | EvClean => (Z.to_nat k + j)%nat = length steps ∨ (length steps ≤ Z.to_nat k ∧ j = 0)%nat
  end.
Proof.
  intros Hv Hs Hd Hp Hk Hpos.
  assert (setdefault "is_new" (VBool false) kwargs !! "pipeline_index" = Some (VInt k)) as Hk'.
  { now rewrite setdefault_lookup_ne by discriminate. }
  rewrite (authenticate_reaches_pipeline [] kwargs st sattrs d w1 steps w2
             (drop (Z.to_nat k) steps) Hv Hs Hd Hp).
  2:{ rewrite Hk'. cbn [slice_from]. unfold slice_start.
      now rewrite (proj2 (Z.ltb_ge k 0) Hpos). }
  destruct (bind_params [] (setdefault "is_new" (VBool false) kwargs))
    as [[[pipeline_index args] kwargs']|err] eqn:Hb.
  2:{ unfold pipeline. now rewrite (bind_lift_raise _ _ _ _ Hb). }
  rewrite (pipeline_log _ _ _ _ _ _ _ Hb).
  intros Hj.
  pose proof (run_pipeline_calls _ _ _ _ _ _ _ _ _ (bind_params_again _ _ _ _ _ Hb) Hj)
    as Hcall.
  unfold bind_params in Hb. destruct (_ || _); [discriminate|].
  rewrite Hk' in Hb. injection Hb as <- <- <-.
  destruct e as [func_name a ctx|].
  - destruct Hcall as (Hn & -> & i & Hi & Hctx). cbn in Hi. injection Hi as <-.
    rewrite lookup_drop in Hn. auto.
  - rewrite length_drop in Hcall. lia.
Qed.

(** X9: a positional argument together with the keyword pipeline_index
    makes a call of [authenticate] whose checks pass raise TypeError when
    it calls [pipeline]: the strategy was asked for the request data and
    the pipeline, and no step is called. *)
Theorem authenticate_index_given_twice x rest kwargs st sattrs d w1 steps w2 start steps' :
  validate (backend st) kwargs = Ok true →
  py_or (strategy (backend st)) (dict_get kwargs "strategy") = VObj sattrs →
  strategy_request_data sattrs (world st) = (Ok d, w1) →
  strategy_get_pipeline sattrs w1 = (Ok steps, w2) →
  kwargs !! "pipeline_index" = Some start →
  slice_from start steps = Ok steps' →
  authenticate (x :: rest) kwargs st =
    (Raise TypeError, {| backend := bound_to (backend st) kwargs d; world := w2 |}, []).
Proof.
  intros Hv Hs Hd Hp Hk Hsl.
  assert (setdefault "is_new" (VBool false) kwargs !! "pipeline_index" = Some start) as Hk'.
  { now rewrite setdefault_lookup_ne by discriminate. }
  rewrite (authenticate_reaches_pipeline (x :: rest) kwargs st sattrs d w1 steps w2
             steps' Hv Hs Hd Hp) by now rewrite Hk'.
  unfold pipeline.
  assert (bind_params (x :: rest) (setdefault "is_new" (VBool false) kwargs)
          = Raise TypeError) as Hb.
  { unfold bind_params. destruct (_ || _); [reflexivity|].
    unfold has_key. rewrite Hk'. now rewrite bool_decide_eq_true_2 by eauto. }
  now rewrite (bind_lift_raise _ _ _ _ Hb).
Qed.

(** X10: the first positional argument of [authenticate] is taken as the
    start index of the run and is not passed on: when no pipeline_index
    keyword is given, every step called is the step at its position in the
    configured pipeline, receives the remaining positional arguments, and
    receives as pipeline_index the sum of that first argument and its
    position. *)
Theorem authenticate_first_argument_is_start_index x rest kwargs st sattrs d w1 steps w2 j e :
  validate (backend st) kwargs = Ok true →
  py_or (strategy (backend st)) (dict_get kwargs "strategy") = VObj sattrs →
  strategy_request_data sattrs (world st) = (Ok d, w1) →
  strategy_get_pipeline sattrs w1 = (Ok steps, w2) →
  kwargs !! "pipeline_index" = None →
  (authenticate (x :: rest) kwargs st).2 !! j = Some e →
  match e with
  | EvStep func_name a ctx =>
      steps !! j = Some func_name ∧ a = rest ∧
      ∃ i, py_add_index x j = Ok i ∧ ctx !! "pipeline_index" = Some i
  | EvClean => j = length steps
  end.
Proof.
  intros Hv Hs Hd Hp Hk.
  assert (setdefault "is_new" (VBool false) kwargs !! "pipeline_index" = None) as Hk'.
  { now rewrite setdefault_lookup_ne by discriminate. }
  rewrite (authenticate_reaches_pipeline (x :: rest) kwargs st sattrs d w1 steps w2
             steps Hv Hs Hd Hp) by now rewrite Hk'.
  destruct (bind_params (x :: rest) (setdefault "is_new" (VBool false) kwargs))
    as [[[pipeline_index args] kwargs']|err] eqn:Hb.
  2:{ unfold pipeline. now rewrite (bind_lift_raise _ _ _ _ Hb). }
  rewrite (pipeline_log _ _ _ _ _ _ _ Hb). intros Hj.
  pose proof (run_pipeline_calls _ _ _ _ _ _ _ _ _ (bind_params_again _ _ _ _ _ Hb) Hj)
    as Hcall.
  apply bind_params_positional in Hb. injection Hb as -> -> ->. exact Hcall.
Qed.

(** The set-up leaves alone the keyword arguments that are neither a
    default nor named like the backend. *)
Lemma initial_context_other self kwargs out0 key :
  initial_context self kwargs = Ok out0 →
  key ≠ "strategy" → key ≠ "backend" → key ≠ "request" → key ≠ name self →
  out0 !! key = kwargs !! key.
Proof.
  unfold initial_context, res_bind.
  destruct (getattr _ "request") as [request|]; [|discriminate].
  intros [= <-] H1 H2 H3 H4.
  rewrite !setdefault_lookup_ne by done. rewrite lookup_delete_ne by done.
  now rewrite setdefault_lookup_ne by done.
Qed.

(** What binding leaves of the keyword arguments, but for pipeline_index. *)
Lemma bind_params_other pos kw pipeline_index args kwargs key :
  bind_params pos kw = Ok (pipeline_index, args, kwargs) →
  key ≠ "pipeline_index" →
  kwargs !! key = kw !! key.
Proof.
  unfold bind_params. destruct (_ || _); [discriminate|]. destruct pos as [|x rest].
  - intros [= <- <- <-] Hne. now rewrite lookup_delete_ne.
  - destruct (has_key kw "pipeline_index"); [discriminate|]. now intros [= <- <- <-].
Qed.

(** X11: the user a call of [authenticate] returns is flagged as not new
    by default: when the caller passes no is_new, the backend is not named
    is_new and no step of the pipeline returns an is_new entry, a user
    instance found in the final context comes back with [is_new] set to
    False (and [social_user] set to the social entry). *)
Theorem authenticate_flags_user_as_not_new args kwargs st sattrs d w1 steps w2
    steps' pipeline_index args' kwargs' out st' log user :
  validate (backend st) kwargs = Ok true →
  py_or (strategy (backend st)) (dict_get kwargs "strategy") = VObj sattrs →
  strategy_request_data sattrs (world st) = (Ok d, w1) →
  strategy_get_pipeline sattrs w1 = (Ok steps, w2) →
  match setdefault "is_new" (VBool false) kwargs !! "pipeline_index" with
  | Some start => slice_from start steps
  | None => Ok steps
  end = Ok steps' →
  bind_params args (setdefault "is_new" (VBool false) kwargs)
    = Ok (pipeline_index, args', kwargs') →
  run_pipeline steps' (pipeline_index :: args') kwargs'
    {| backend := bound_to (backend st) kwargs d; world := w2 |}
    = (Ok (VDict out), st', log) →
  kwargs !! "is_new" = None →
  name (backend st) ≠ "is_new" →
  (∀ func_name func, func_name ∈ steps' → module_member func_name = Ok func →
     ∀ a ctx w r w', func a ctx w = (Ok (VDict r), w') → r !! "is_new" = None) →
  out !! "user" = Some (VObj user) →
  authenticate args kwargs st =
    (Ok (VObj (<["is_new" := VBool false]>
              (<["social_user" := dict_get out "social"]> user))), st', log).
Proof.
  intros Hv Hs Hd Hp Hsl Hb Hrun Hnew Hname Hsteps Huser.
  rewrite (authenticate_reaches_pipeline args kwargs st sattrs d w1 steps w2 steps'
             Hv Hs Hd Hp Hsl).
  unfold pipeline. rewrite (bind_lift_ok _ _ _ _ Hb). unfold bind. rewrite Hrun.
  assert (out !! "is_new" = Some (VBool false)) as Hflag.
  { pose proof (bind_params_again _ _ _ _ _ Hb) as Hb'.
    destruct (run_pipeline_ok_inv _ _ _ _ _ _ _ _ Hrun) as (_ & out0 & attrs & Hi & _).
    rewrite (run_pipeline_frame _ _ _ _ _ _ _ _ _ _ _ "is_new" Hb' Hi
               ltac:(discriminate) Hsteps Hrun).
    rewrite (initial_context_other _ _ _ "is_new" Hi)
      by (try discriminate; intros Heq; now apply Hname).
    rewrite (bind_params_other _ _ _ _ _ "is_new" Hb) by discriminate.
    rewrite setdefault_lookup_eq. now rewrite Hnew. }
  unfold unwrap_user, dict_get. rewrite Huser, Hflag. cbn. now rewrite app_nil_r.
Qed.

End Entry.

(** ** Properties of disconnect *)

Section Disconnect.

Context {env : Env} {svc : Services env}.

(** A call of [disconnect] up to its run of the executor. *)
Lemma disconnect_reaches_run args kwargs st sattrs steps w1 steps' b n storage user :
  strategy (backend st) = VObj sattrs →
  strategy_get_disconnect_pipeline sattrs (world st) = (Ok steps, w1) →
  match kwargs !! "pipeline_index" with
  | Some start => slice_from start steps
  | None => Ok steps
  end = Ok steps' →
  sattrs !! "backend" = Some b →
  getattr b "name" = Ok n →
  sattrs !! "storage" = Some storage →
  getattr storage "user" = Ok user →
  disconnect args kwargs st =
    run_pipeline steps' args (<["user_storage" := user]> (<["name" := n]> kwargs))
      (after st w1).
Proof.
  intros Hs Hp Hsl Hb Hn Hst Hu.
  unfold disconnect. rewrite bind_get_self, Hs.
  unfold call_method at 1, call, bind at 1. rewrite Hp.
  assert (∀ st0, (match kwargs !! "pipeline_index" with
                  | Some start => lift (slice_from start steps)
                  | None => ret steps
                  end) st0 = (Ok steps', st0, [])) as Hsl'.
  { intros st0. destruct (kwargs !! "pipeline_index"); [now rewrite Hsl|].
    now injection Hsl as ->. }
  unfold bind at 1. rewrite Hsl'. rewrite bind_get_self. cbn [after backend]. rewrite Hs.
  assert (getattr (VObj sattrs) "backend" = Ok b) as Hb' by (cbn; now rewrite Hb).
  assert (getattr (VObj sattrs) "storage" = Ok storage) as Hst' by (cbn; now rewrite Hst).
  rewrite (bind_lift_ok _ _ _ _ Hb'), (bind_lift_ok _ _ _ _ Hn).
  rewrite (bind_lift_ok _ _ _ _ Hst'), (bind_lift_ok _ _ _ _ Hu).
  now destruct (run_pipeline steps' args _ _) as [[r st'] log].
Qed.


(** X12: [disconnect] runs the disconnect pipeline with the name of the
    strategy's backend and the user storage of the strategy in the context:
    the first step receives them under name and user_storage, whatever the
    caller passed under these names (the backend being named otherwise). *)
Theorem disconnect_passes_name_and_storage args kwargs st sattrs steps w1 steps'
    b n storage user func_name a ctx :
  strategy (backend st) = VObj sattrs →
  strategy_get_disconnect_pipeline sattrs (world st) = (Ok steps, w1) →
  match kwargs !! "pipeline_index" with
  | Some start => slice_from start steps
  | None => Ok steps
  end = Ok steps' →
  sattrs !! "backend" = Some b →
  getattr b "name" = Ok n →
  sattrs !! "storage" = Some storage →
  getattr storage "user" = Ok user →
  name (backend st) ≠ "name" →
  name (backend st) ≠ "user_storage" →
  (disconnect args kwargs st).2 !! 0%nat = Some (EvStep func_name a ctx) →
  steps' !! 0%nat = Some func_name ∧
  ctx !! "name" = Some n ∧
  ctx !! "user_storage" = Some user.
Proof.
  intros Hs Hp Hsl Hb Hn Hst Hu Hn1 Hn2.
  rewrite (disconnect_reaches_run _ _ _ _ _ _ _ _ _ _ _ Hs Hp Hsl Hb Hn Hst Hu).
  set (kw := <["user_storage" := user]> (<["name" := n]> kwargs)).
  destruct (bind_params args kw) as [[[pipeline_index args'] kwargs']|e] eqn:Hbind.
  2:{ unfold run_pipeline. now rewrite (bind_lift_raise _ _ _ _ Hbind). }
  destruct (initial_context (backend (after st w1)) kwargs') as [out0|e] eqn:Hi.
  2:{ now rewrite (run_pipeline_no_context _ _ _ _ _ _ _ _ Hbind Hi). }
  intros Hj.
  pose proof (run_pipeline_calls _ _ _ _ _ _ _ _ _ Hbind Hj) as (Hname & _ & _).
  split; [exact Hname|].
  rewrite (run_pipeline_log _ _ _ _ _ _ _ _ Hbind Hi) in Hj.
  pose proof (run_steps_first_event pipeline_index args' steps' 0 out0 (after st w1)) as Hfirst.
  destruct (run_steps pipeline_index args' steps' 0 out0 (after st w1)) as [[fl s1] l1].
  cbn [fst snd] in *. destruct l1 as [|ev l1].
  { destruct fl as [[]|]; discriminate Hj. }
  cbn in Hj. injection Hj as ->. destruct Hfirst as [i ->].
  rewrite !lookup_insert_ne by discriminate.
  rewrite !(initial_context_other _ _ _ _ Hi) by (try discriminate; cbn; congruence).
  rewrite !(bind_params_other _ _ _ _ _ _ Hbind) by discriminate.
  unfold kw. rewrite lookup_insert_ne by discriminate.
  now rewrite !lookup_insert_eq.
Qed.


End Disconnect.

(** ** Properties of the extra arguments and of the allow-lists *)

(** The text before and after the first separator, put back together,
    is the string that was split; the text before has no separator, and a
    string without separator is not split. *)
Lemma split_first_Some sep s before after_ :
  split_first sep s = Some (before, after_) ↔
  s = (before ++ String sep after_)%string ∧ ¬ In sep (list_ascii_of_string before).
Proof.
  revert before after_. induction s as [|c s IH]; intros before after_; cbn.
  - split; [discriminate|]. intros [Heq _]. now destruct before.
  - destruct (Ascii.eqb c sep) eqn:Hc.
    + apply Ascii.eqb_eq in Hc as ->. split.
      * intros [= <- <-]. split; [reflexivity|]. now intros [].
      * intros [Heq Hno]. destruct before as [|c' before].
        -- cbn in Heq. now injection Heq as ->.
        -- cbn in Heq. injection Heq as -> _. exfalso. apply Hno. now left.
    + apply Ascii.eqb_neq in Hc. destruct (split_first sep s) as [[b a]|] eqn:Hs.
      * split.
        -- intros [= <- <-]. destruct (proj1 (IH b a) eq_refl) as [-> Hno].
           split; [reflexivity|]. intros [Heq|Hin]; [congruence|now apply Hno].
        -- intros [Heq Hno]. destruct before as [|c' before].
           ++ cbn in Heq. injection Heq as Heq _. congruence.
           ++ cbn in Heq. injection Heq as <- Heq.
              assert (Some (b, a) = Some (before, after_)) as [= -> ->]; [|reflexivity].
              apply IH. split; [exact Heq|]. intros Hin. apply Hno. now right.
      * split; [discriminate|]. intros [Heq Hno]. destruct before as [|c' before].
        -- cbn in Heq. injection Heq as Heq _. congruence.
        -- cbn in Heq. injection Heq as <- Heq. exfalso.
           assert (None = Some (before, after_)) as Habs; [|discriminate Habs].
           apply IH. split; [exact Heq|]. intros Hin. apply Hno. now right.
Qed.

Lemma prefix_spec a b : String.prefix a b = true ↔ ∃ post, b = (a ++ post)%string.
Proof.
  revert b. induction a as [|c a IH]; intros b.
  - destruct b; cbn; (split; [intros _; eexists; reflexivity|reflexivity]).
  - destruct b as [|c' b]; cbn; [split; [discriminate|now intros [post [=]]]|].
    destruct (ascii_dec c c') as [->|Hne].
    + rewrite IH. split; intros [post Hpost]; exists post; [now rewrite Hpost|].
      now injection Hpost.
    + split; [discriminate|]. intros [post [= ? _]]. congruence.
Qed.

(** [needle in hay] holds exactly when [hay] is some text, the needle and
    some more text. *)
Lemma is_substring_spec needle hay :
  is_substring needle hay = true ↔ ∃ pre post, hay = (pre ++ needle ++ post)%string.
Proof.
  induction hay as [|c hay IH]; cbn [is_substring]; rewrite orb_true_iff, prefix_spec.
  - split.
    + intros [[post Hpost]|[=]]. now exists ""%string, post.
    + intros (pre & post & Heq). left. destruct pre; [now exists post|discriminate Heq].
  - rewrite IH. split.
    + intros [[post Hpost]|(pre & post & Heq)].
      * now exists ""%string, post.
      * exists (String c pre), post. cbn. now rewrite Heq.
    + intros (pre & post & Heq). destruct pre as [|c' pre].
      * left. now exists post.
      * right. cbn in Heq. injection Heq as _ Heq. now exists pre, post.
Qed.

Section Filters.

Context {env : Env}.



(** X15: with list-valued allow-lists of which one is not empty, a
    non-empty email is allowed exactly when it has an at sign and either
    the whole email is in the email allow-list or the text after its first
    at sign is in the domain allow-list. *)
Theorem auth_allowed_needs_first_at_sign response details st es ds email :
  setting "WHITELISTED_EMAILS" (VList []) st = (Ok (VList es), st, []) →
  setting "WHITELISTED_DOMAINS" (VList []) st = (Ok (VList ds), st, []) →
  es ≠ [] ∨ ds ≠ [] →
  details !! "email" = Some (VStr email) →
  email ≠ "" →
  auth_allowed response details st = (Ok true, st, []) ↔
  ∃ local domain,
    email = (local ++ String "@" domain)%string ∧
    ¬ In "@"%char (list_ascii_of_string local) ∧
    (VStr email ∈ es ∨ VStr domain ∈ ds).
Proof.
  intros He Hd Hconf Hemail Hne. rewrite (auth_allowed_unfold _ _ _ _ _ He Hd).
  unfold dict_get. rewrite Hemail. cbn [from_option id].
  assert (truthy (VStr email) = true) as ->.
  { destruct email; [congruence|reflexivity]. }
  assert (truthy (VList es) || truthy (VList ds) = true) as ->.
  { destruct es, ds; simpl; try reflexivity. destruct Hconf; congruence. }
  cbn [andb]. unfold str_split1.
  destruct (split_first "@" email) as [[local domain]|] eqn:Hsplit.
  - unfold index. cbn [lookup list_lookup]. simpl lift.
    rewrite bind_ret. cbn [py_in_str]. rewrite bind_ret.
    apply split_first_Some in Hsplit as [Heq Hno].
    assert (∀ l d', email = (l ++ String "@" d')%string →
                    ¬ In "@"%char (list_ascii_of_string l) → d' = domain) as Huniq.
    { intros l d' Heq' Hno'.
      assert (split_first "@" email = Some (l, d')) as H1 by now apply split_first_Some.
      assert (split_first "@" email = Some (local, domain)) as H2 by now apply split_first_Some.
      congruence. }
    destruct (existsb _ es) eqn:Hes.
    + split; [|reflexivity]. intros _. exists local, domain.
      repeat split; auto. left. now apply py_in_str_list.
    + cbn [lift]. split.
      * destruct (existsb _ ds) eqn:Hds; [|discriminate]. intros _.
        exists local, domain. repeat split; auto. right. now apply py_in_str_list.
      * intros (l & d' & Heq' & Hno' & [Hin|Hin]).
        -- apply py_in_str_list in Hin. congruence.
        -- rewrite (Huniq l d' Heq' Hno') in Hin. apply py_in_str_list in Hin.
           now rewrite Hin.
  - split; [discriminate|]. intros (l & d' & Heq' & Hno' & _).
    assert (split_first "@" email = Some (l, d')) as H1 by now apply split_first_Some.
    congruence.
Qed.

(** X16: a domain allow-list that is a string and not a list of strings
    is searched for substrings: with no email allow-list, an email is
    allowed exactly when the text after its first at sign occurs somewhere
    in that string. *)
Theorem auth_allowed_string_allow_list_matches_substrings response details st
    allowed_domains local domain :
  setting "WHITELISTED_EMAILS" (VList []) st = (Ok (VList []), st, []) →
  setting "WHITELISTED_DOMAINS" (VList []) st = (Ok (VStr allowed_domains), st, []) →
  allowed_domains ≠ "" →
  details !! "email" = Some (VStr (local ++ String "@" domain)) →
  ¬ In "@"%char (list_ascii_of_string local) →
  ∃ allowed,
    auth_allowed response details st = (Ok allowed, st, []) ∧
    (allowed = true ↔
     ∃ pre post, allowed_domains = (pre ++ domain ++ post)%string).
Proof.
  intros He Hd Hne Hemail Hno. rewrite (auth_allowed_unfold _ _ _ _ _ He Hd).
  unfold dict_get. rewrite Hemail. cbn [from_option id].
  assert (split_first "@" (local ++ String "@" domain) = Some (local, domain)) as Hsplit
    by now apply split_first_Some.
  assert (truthy (VStr (local ++ String "@" domain)) = true) as ->.
  { now destruct local. }
  assert (truthy (VList []) || truthy (VStr allowed_domains) = true) as ->.
  { destruct allowed_domains; [congruence|reflexivity]. }
  cbn [andb]. unfold str_split1. rewrite Hsplit.
  unfold index. cbn [lookup list_lookup]. simpl lift.
  rewrite bind_ret. cbn [py_in_str existsb]. rewrite bind_ret. cbn [lift].
  exists (is_substring domain allowed_domains). split; [reflexivity|].
  apply is_substring_spec.
Qed.

End Filters.

(** ** The further statements on the concrete environments *)

(** The second of three steps fails. *)
Lemma step_exception_ends_run_witness :
  ∃ log,
    run_pipeline (["get_details"] ++ "create_user" :: ["load_user"]) [] ∅ (lab_foo [])
      = (Raise (Failure "IntegrityError"), lab_foo [], log) ∧
    omap step_name log = ["get_details"] ++ ["create_user"] ∧
    filter is_clean log = [].
Proof.
  eapply (step_exception_ends_run (env := lab) ["get_details"] "create_user" ["load_user"]
            [] ∅ (lab_foo []) (VInt 0) [] ∅ _ _ (lab_foo []) _ _ _
            (Failure "IntegrityError") 0%nat);
    reflexivity.
Defined.

(** The second of three addresses resolves to nothing. *)
Lemma unresolved_step_ends_run_witness :
  ∃ log,
    run_pipeline (["get_details"] ++ "no.such.step" :: ["load_user"]) [] ∅ (lab_foo [])
      = (Raise (Failure "ImportError"), lab_foo [], log) ∧
    omap step_name log = ["get_details"] ∧
    filter is_clean log = [].
Proof.
  eapply (unresolved_step_ends_run (env := lab) ["get_details"] "no.such.step" ["load_user"]
            [] ∅ (lab_foo []) (VInt 0) [] ∅ _ _ (lab_foo []) _ _
            (Failure "ImportError"));
    reflexivity.
Defined.

(** A run from index 3: its second call is the second step, with index 4. *)
Lemma recorded_calls_follow_pipeline_witness :
  ∃ ctx,
    (run_pipeline ["get_details"; "get_username"] [VInt 3; VStr "x"] ∅ (lab_foo [])).2 !! 1%nat
      = Some (EvStep "get_username" [VStr "x"] ctx) ∧
    ctx !! "pipeline_index" = Some (VInt 4).
Proof.
  eexists. split; [reflexivity|].
  assert (bind_params [VInt 3; VStr "x"] ∅ = Ok (VInt 3, [VStr "x"], ∅)) as Hb by reflexivity.
  destruct (recorded_calls_follow_pipeline (env := lab) ["get_details"; "get_username"]
              [VInt 3; VStr "x"] ∅ (lab_foo []) (VInt 3) [VStr "x"] ∅ 1%nat _ Hb eq_refl)
    as (_ & _ & i & [= <-] & Hctx).
  exact Hctx.
Defined.

(** The second step of a run that was passed a response. *)
Lemma every_step_receives_defaults_witness :
  ∃ ctx,
    (run_pipeline ["get_details"; "get_username"] [] (<["response" := VInt 7]> ∅)
       (lab_foo [])).2 !! 1%nat = Some (EvStep "get_username" [] ctx) ∧
    is_Some (ctx !! "backend") ∧ is_Some (ctx !! "request") ∧
    is_Some (ctx !! "pipeline_index") ∧ is_Some (ctx !! "response").
Proof.
  assert (∃ ctx,
            (run_pipeline ["get_details"; "get_username"] [] (<["response" := VInt 7]> ∅)
               (lab_foo [])).2 !! 1%nat = Some (EvStep "get_username" [] ctx))
    as [ctx Hctx] by (eexists; reflexivity).
  exists ctx. split; [exact Hctx|].
  assert (bind_params [] (<["response" := VInt 7]> ∅)
          = Ok (VInt 0, [], <["response" := VInt 7]> ∅)) as Hb by reflexivity.
  destruct (every_step_receives_defaults (env := lab) ["get_details"; "get_username"]
              [] (<["response" := VInt 7]> ∅) (lab_foo []) (VInt 0) []
              (<["response" := VInt 7]> ∅) "get_username" [] ctx Hb)
    as (H1 & H2 & H3 & H4).
  { apply list_elem_of_lookup. now exists 1%nat. }
  repeat split; auto.
Defined.

(** The response passed to a run is in the context it returns. *)
Lemma untouched_entries_survive_witness :
  ∃ out st' log,
    run_pipeline ["get_details"; "get_username"] [] (<["response" := VInt 7]> ∅) (lab_foo [])
      = (Ok (VDict out), st', log) ∧
    out !! "response" = Some (VInt 7).
Proof.
  assert (∃ out st' log,
            run_pipeline ["get_details"; "get_username"] [] (<["response" := VInt 7]> ∅)
              (lab_foo []) = (Ok (VDict out), st', log))
    as (out & st' & log & Hrun) by (do 3 eexists; reflexivity).
  exists out, st', log. split; [exact Hrun|].
  assert (bind_params [] (<["response" := VInt 7]> ∅)
          = Ok (VInt 0, [], <["response" := VInt 7]> ∅)) as Hb by reflexivity.
  assert (initial_context (backend (lab_foo [])) (<["response" := VInt 7]> ∅)
          = Ok (<["request" := VStr "POST /disconnect/foo"]>
               (<["backend" := as_value (backend (lab_foo []))]>
               (<["strategy" := strategy (backend (lab_foo []))]>
               (<["response" := VInt 7]> ∅))))) as Hi by reflexivity.
  rewrite (untouched_entries_survive (env := lab) ["get_details"; "get_username"]
             [] (<["response" := VInt 7]> ∅) (lab_foo []) (VInt 0) []
             (<["response" := VInt 7]> ∅) _ out st' log "response" Hb Hi
             ltac:(discriminate)); [reflexivity| |exact Hrun].
  intros func_name func Hin Hf a ctx w d w' Hcall.
  repeat (apply elem_of_cons in Hin as [->|Hin]); [| |now apply elem_of_nil in Hin];
    cbn in Hf; injection Hf as <-; injection Hcall as <- _; reflexivity.
Defined.


(** A backend with a strategy is passed another one and a redirect URI:
    it keeps its strategy and takes the redirect URI, which it lacked. *)
Lemma authenticate_keeps_bound_strategy_witness :
  name (backend (authenticate [] (other_strategy_credentials ["get_details"])
                   (lab_foo ["get_details"])).1.2) = "foo" ∧
  strategy (backend (authenticate [] (other_strategy_credentials ["get_details"])
                       (lab_foo ["get_details"])).1.2)
    = lab_strategy "foo" ∅ ["get_details"] ∧
  redirect_uri (backend (authenticate [] (other_strategy_credentials ["get_details"])
                           (lab_foo ["get_details"])).1.2) = VStr "/next".
Proof.
  apply (authenticate_keeps_bound_strategy (env := lab) []
           (other_strategy_credentials ["get_details"]) (lab_foo ["get_details"])).
  reflexivity.
Defined.

(** Resuming a pipeline of three steps at index 1. *)
Lemma authenticate_resumes_at_index_witness :
  ∃ ctx,
    (authenticate [] (resuming_credentials ["get_details"; "get_username"; "load_user"] 1)
       (lab_foo ["get_details"; "get_username"; "load_user"])).2 !! 0%nat
      = Some (EvStep "get_username" [] ctx) ∧
    ctx !! "pipeline_index" = Some (VInt 1).
Proof.
  assert (∃ ctx,
            (authenticate [] (resuming_credentials ["get_details"; "get_username"; "load_user"] 1)
               (lab_foo ["get_details"; "get_username"; "load_user"])).2 !! 0%nat
            = Some (EvStep "get_username" [] ctx)) as [ctx Hctx] by (eexists; reflexivity).
  exists ctx. split; [exact Hctx|].
  eapply (authenticate_resumes_at_index (env := lab)
            (resuming_credentials ["get_details"; "get_username"; "load_user"] 1)
            (lab_foo ["get_details"; "get_username"; "load_user"])
            _ _ _ _ _ 1 0%nat (EvStep "get_username" [] ctx));
    [reflexivity | reflexivity | reflexivity | reflexivity | reflexivity | lia | exact Hctx].
Defined.

(** A positional argument with the keyword pipeline_index. *)
Lemma authenticate_index_given_twice_witness :
  authenticate [VInt 0] (resuming_credentials ["get_details"; "get_username"] 1)
    (lab_foo ["get_details"; "get_username"]) =
  (Raise TypeError,
   @Build_state lab
     (bound_to (backend (lab_foo ["get_details"; "get_username"]))
        (resuming_credentials ["get_details"; "get_username"] 1) (VDict ∅)) 0%nat,
   []).
Proof.
  eapply (authenticate_index_given_twice (env := lab) (VInt 0) []
            (resuming_credentials ["get_details"; "get_username"] 1)
            (lab_foo ["get_details"; "get_username"]));
    reflexivity.
Defined.

(** Two positional arguments: the first is the start index, the second
    reaches the steps. *)
Lemma authenticate_first_argument_is_start_index_witness :
  ∃ ctx,
    (authenticate [VInt 5; VStr "extra"] (lab_credentials ["get_details"])
       (lab_foo ["get_details"])).2 !! 0%nat
      = Some (EvStep "get_details" [VStr "extra"] ctx) ∧
    ctx !! "pipeline_index" = Some (VInt 5).
Proof.
  assert (∃ ctx,
            (authenticate [VInt 5; VStr "extra"] (lab_credentials ["get_details"])
               (lab_foo ["get_details"])).2 !! 0%nat
            = Some (EvStep "get_details" [VStr "extra"] ctx)) as [ctx Hctx]
    by (eexists; reflexivity).
  exists ctx. split; [exact Hctx|].
  assert (["get_details"] !! 0%nat = Some "get_details" ∧ [VStr "extra"] = [VStr "extra"] ∧
          ∃ i, py_add_index (VInt 5) 0 = Ok i ∧ ctx !! "pipeline_index" = Some i)
    as (_ & _ & i & [= <-] & Hi).
  { eapply (authenticate_first_argument_is_start_index (env := lab) (VInt 5) [VStr "extra"]
              (lab_credentials ["get_details"]) (lab_foo ["get_details"])
              (attrs_of (lab_strategy "foo" ∅ ["get_details"])) (VDict ∅) 0%nat
              ["get_details"] 0%nat 0%nat (EvStep "get_details" [VStr "extra"] ctx));
      [reflexivity | reflexivity | reflexivity | reflexivity | reflexivity | exact Hctx]. }
  exact Hi.
Defined.

(** Two steps of which none says whether the user is new. *)
Lemma authenticate_flags_user_as_not_new_witness :
  ∃ st' log,
    authenticate [] (lab_credentials ["get_details"; "associate_user"])
      (lab_foo ["get_details"; "associate_user"]) =
    (Ok (VObj (<["is_new" := VBool false]>
              (<["social_user" := VStr "bob@foo"]>
              (<["username" := VStr "bob"]> ∅)))), st', log).
Proof.
  assert (∃ out st' log,
            run_pipeline ["get_details"; "associate_user"] [VInt 0]
              (setdefault "is_new" (VBool false)
                 (lab_credentials ["get_details"; "associate_user"]))
              (@Build_state lab
                 (bound_to (backend (lab_foo ["get_details"; "associate_user"]))
                    (lab_credentials ["get_details"; "associate_user"]) (VDict ∅)) 0%nat)
            = (Ok (VDict out), st', log) ∧
            out !! "user" = Some the_user ∧
            dict_get out "social" = VStr "bob@foo")
    as (out & st' & log & Hrun & Huser & Hsocial)
    by (do 3 eexists; repeat split; reflexivity).
  exists st', log. rewrite <- Hsocial.
  eapply (authenticate_flags_user_as_not_new (env := lab) []
            (lab_credentials ["get_details"; "associate_user"])
            (lab_foo ["get_details"; "associate_user"])
            _ (VDict ∅) 0%nat ["get_details"; "associate_user"] 0%nat
            ["get_details"; "associate_user"] (VInt 0) [] _ out st' log);
    [reflexivity | reflexivity | reflexivity | reflexivity | reflexivity | reflexivity
    | exact Hrun | reflexivity | discriminate | | exact Huser].
  intros func_name func Hin Hf a ctx w r w' Hcall.
  repeat (apply elem_of_cons in Hin as [->|Hin]); [| |now apply elem_of_nil in Hin];
    cbn in Hf; injection Hf as <-; injection Hcall as <- _; reflexivity.
Defined.

(** A disconnect pipeline of two steps; the caller passes a name. *)
Lemma disconnect_passes_name_and_storage_witness :
  ∃ ctx,
    (disconnect (svc := lab_services) [] (<["name" := VStr "caller"]> ∅)
       (lab_foo ["get_details"; "nothing"])).2 !! 0%nat
      = Some (EvStep "get_details" [] ctx) ∧
    ctx !! "name" = Some (VStr "foo") ∧
    ctx !! "user_storage" = Some (VStr "UserMixin").
Proof.
  assert (∃ ctx,
            (disconnect (svc := lab_services) [] (<["name" := VStr "caller"]> ∅)
               (lab_foo ["get_details"; "nothing"])).2 !! 0%nat
            = Some (EvStep "get_details" [] ctx)) as [ctx Hctx] by (eexists; reflexivity).
  exists ctx. split; [exact Hctx|].
  assert (["get_details"; "nothing"] !! 0%nat = Some "get_details" ∧
          ctx !! "name" = Some (VStr "foo") ∧
          ctx !! "user_storage" = Some (VStr "UserMixin")) as (_ & Hname & Hstorage).
  { eapply (disconnect_passes_name_and_storage (env := lab) (svc := lab_services) []
              (<["name" := VStr "caller"]> ∅) (lab_foo ["get_details"; "nothing"])
              (attrs_of (lab_strategy "foo" ∅ ["get_details"; "nothing"]))
              ["get_details"; "nothing"] 0%nat ["get_details"; "nothing"]
              (VObj (<["name" := VStr "foo"]> ∅)) (VStr "foo")
              (VObj (<["user" := VStr "UserMixin"]> ∅)) (VStr "UserMixin")
              "get_details" [] ctx);
      [reflexivity | reflexivity | reflexivity | reflexivity | reflexivity | reflexivity
      | reflexivity | discriminate | discriminate | exact Hctx]. }
  split; [exact Hname | exact Hstorage].
Defined.



(** The domain allow-list [x.com] and two emails. *)
Lemma auth_allowed_needs_first_at_sign_witness :
  (auth_allowed VNone (details_of "b@x.com") only_domain_x = (Ok true, only_domain_x, []) ↔
   ∃ local domain,
     "b@x.com" = (local ++ String "@" domain)%string ∧
     ¬ In "@"%char (list_ascii_of_string local) ∧
     (VStr "b@x.com" ∈ [] ∨ VStr domain ∈ [VStr "x.com"])).
Proof.
  apply (auth_allowed_needs_first_at_sign (env := demo) VNone (details_of "b@x.com")
           only_domain_x [] [VStr "x.com"] "b@x.com");
    [reflexivity | reflexivity | right; discriminate | reflexivity | discriminate].
Defined.

(** The allow-list is the string example.com: ample.com passes. *)
Lemma auth_allowed_string_allow_list_matches_substrings_witness :
  ∃ allowed,
    auth_allowed VNone (details_of "a@ample.com") domains_as_string
      = (Ok allowed, domains_as_string, []) ∧
    (allowed = true ↔ ∃ pre post, "example.com" = (pre ++ "ample.com" ++ post)%string).
Proof.
  apply (auth_allowed_string_allow_list_matches_substrings (env := demo) VNone
           (details_of "a@ample.com") domains_as_string "example.com" "a" "ample.com");
    [reflexivity | reflexivity | discriminate | reflexivity |].
  intros [Heq|[]]. discriminate Heq.
Defined.

Example ample_is_allowed :
  auth_allowed VNone (details_of "a@ample.com") domains_as_string
    = (Ok true, domains_as_string, []).
Proof. reflexivity. Qed.
